(** * Sentiment scorer and trend forecaster of the stock dashboard

    A shallow embedding of the four functions of [app.py] that carry logic:
    [analyze_sentiment], [batch_sentiment_analysis], [fetch_stock_data] and
    [predict_stock_trend].  The third-party collaborators (language detector,
    HuggingFace pipelines, chat completion, Yahoo Finance, the least-squares
    solver, the wall clock) are oracles: every theorem quantifies over them.

    Python exceptions are explicit: a computation ends in [Ret v] or
    [Raise e].  Calls to collaborators are recorded in a trace, so that
    "this path never calls the remote API" is a statement about the trace. *)

From Stdlib Require Import List String Ascii Bool Arith ZArith QArith Lia.
Import ListNotations.

Local Open Scope string_scope.
Local Open Scope list_scope.
Local Open Scope Z_scope.

(* ===================================================================== *)
(** ** Exceptions and traced computations *)
(* ===================================================================== *)

Module Py.

(** The exception classes met on the modelled paths.  All of them derive
    from [Exception], so both [except Exception:] and a bare [except:]
    catch every one of them. *)
Inductive exn : Type :=
| ValueError
| TypeError
| KeyError
| IndexError
| AttributeError
| LangDetectException
| OutOfBoundsDatetime       (* pandas; a subclass of ValueError *)
| ExternalError.          (* network, API or model failure *)

Inductive outcome (A : Type) : Type :=
| Ret (a : A)
| Raise (e : exn).
Arguments Ret {A} a.
Arguments Raise {A} e.

(** One entry per call that leaves the process or blocks it. *)
Inductive event : Type :=
| EvDetect (text : string)        (* langdetect.detect *)
| EvLocalEn (text : string)       (* sentiment_en(...) *)
| EvLocalZh (text : string)       (* sentiment_zh(...) *)
| EvRemote (text : string)        (* client.chat.completions.create *)
| EvSleep (millis : Z).           (* time.sleep *)

(** A traced computation: the calls made, in order, and how it ended. *)
Definition M (A : Type) : Type := (list event * outcome A)%type.

Definition ret {A} (a : A) : M A := ([], Ret a).
Definition raise {A} (e : exn) : M A := ([], Raise e).

Definition bind {A B} (m : M A) (f : A -> M B) : M B :=
  match m with
  | (t, Ret a) => let (t', r) := f a in (t ++ t', r)
  | (t, Raise e) => (t, Raise e)
  end.

(** [try: m except Exception: h].  The calls made before the exception
    stay in the trace. *)
Definition try_except {A} (m : M A) (h : M A) : M A :=
  match m with
  | (t, Ret a) => (t, Ret a)
  | (t, Raise _) => let (t', r) := h in (t ++ t', r)
  end.

(** A call to a collaborator whose result the oracle has fixed. *)
Definition call {A} (ev : event) (o : outcome A) : M A := ([ev], o).

Definition trace {A} (m : M A) : list event := fst m.
Definition result {A} (m : M A) : outcome A := snd m.

(** The exception-only fragment, for code that calls no collaborator. *)
Definition obind {A B} (o : outcome A) (f : A -> outcome B) : outcome B :=
  match o with
  | Ret a => f a
  | Raise e => Raise e
  end.

Definition otry {A} (o : outcome A) (h : outcome A) : outcome A :=
  match o with
  | Ret a => Ret a
  | Raise _ => h
  end.

End Py.
Import Py.

Declare Scope py_scope.
Delimit Scope py_scope with py.
Notation "x <- m ;; k" := (bind m (fun x => k))
  (at level 61, m at next level, right associativity) : py_scope.
Notation "m ;;; k" := (bind m (fun _ => k))
  (at level 61, right associativity) : py_scope.
Notation "x <~ o ;; k" := (obind o (fun x => k))
  (at level 61, o at next level, right associativity) : py_scope.

(* ===================================================================== *)
(** ** Text primitives *)
(* ===================================================================== *)

(** A text is the string of bytes of its UTF-8 encoding.  The characters
    the code looks for (["<"], [">"], [" "], [":"], the keywords) are
    ASCII, and no byte of a longer code point is an ASCII byte, so working
    on bytes finds what the code finds on code points.  Whitespace is the
    full set of [str.isspace]; the case mapping is the ASCII one. *)
Module Text.

Definition lt_sign : ascii := "<"%char.
Definition gt_sign : ascii := ">"%char.

(** For the text right after a ["<"]: the number of characters that the
    rest of the pattern [[^>]+>] consumes, if it matches.  [[^>]+] is
    greedy but can only stop in front of the first [">"], and needs at
    least one character. *)
Fixpoint until_gt (s : string) : option nat :=
  match s with
  | EmptyString => None
  | String c rest =>
      if Ascii.eqb c gt_sign then Some 1%nat
      else option_map S (until_gt rest)
  end.

Definition tag_body (s : string) : option nat :=
  match s with
  | EmptyString => None
  | String c rest =>
      if Ascii.eqb c gt_sign then None
      else option_map S (until_gt rest)
  end.

(** [re.sub(r'<[^>]+>', '', s)]: leftmost matches, left to right, never
    overlapping.  [skip] counts the characters of the current match that
    are still to be dropped. *)
Fixpoint sub_tags (skip : nat) (s : string) : string :=
  match s with
  | EmptyString => EmptyString
  | String c rest =>
      match skip with
      | S k => sub_tags k rest
      | O =>
          if Ascii.eqb c lt_sign then
            match tag_body rest with
            | Some n => sub_tags n rest
            | None => String c (sub_tags O rest)
            end
          else String c (sub_tags O rest)
      end
  end.

Definition strip_tags (s : string) : string := sub_tags O s.

(** [str.isspace] on a code point of one byte: U+0009 to U+000D, U+001C
    to U+0020. *)
Definition is_space (c : ascii) : bool :=
  let n := nat_of_ascii c in
  ((9 <=? n) && (n <=? 13) || (28 <=? n) && (n <=? 32))%nat.

(** ... of two bytes: U+0085 (C2 85) and U+00A0 (C2 A0). *)
Definition is_space2 (c1 c2 : ascii) : bool :=
  let n1 := nat_of_ascii c1 in
  let n2 := nat_of_ascii c2 in
  ((n1 =? 194) && ((n2 =? 133) || (n2 =? 160)))%nat.

(** ... of three bytes: U+1680 (E1 9A 80), U+2000 to U+200A (E2 80 80 to
    E2 80 8A), U+2028, U+2029, U+202F (E2 80 A8, A9, AF), U+205F
    (E2 81 9F) and U+3000 (E3 80 80). *)
Definition is_space3 (c1 c2 c3 : ascii) : bool :=
  let n1 := nat_of_ascii c1 in
  let n2 := nat_of_ascii c2 in
  let n3 := nat_of_ascii c3 in
  ((n1 =? 225) && (n2 =? 154) && (n3 =? 128)
   || (n1 =? 226) && (n2 =? 128)
      && ((128 <=? n3) && (n3 <=? 138)
          || (n3 =? 168) || (n3 =? 169) || (n3 =? 175))
   || (n1 =? 226) && (n2 =? 129) && (n3 =? 159)
   || (n1 =? 227) && (n2 =? 128) && (n3 =? 128))%nat.

(** [str.lstrip()] *)
Fixpoint lstrip (s : string) : string :=
  match s with
  | EmptyString => EmptyString
  | String c1 rest1 =>
      if is_space c1 then lstrip rest1
      else
        match rest1 with
        | EmptyString => s
        | String c2 rest2 =>
            if is_space2 c1 c2 then lstrip rest2
            else
              match rest2 with
              | EmptyString => s
              | String c3 rest3 =>
                  if is_space3 c1 c2 c3 then lstrip rest3 else s
              end
        end
  end.

(** Whitespace only. *)
Definition blank (s : string) : bool :=
  match lstrip s with
  | EmptyString => true
  | _ => false
  end.

(** [str.rstrip()]: the longest blank tail goes. *)
Fixpoint rstrip (s : string) : string :=
  match s with
  | EmptyString => EmptyString
  | String c rest => if blank s then EmptyString else String c (rstrip rest)
  end.

(** [str.strip()] *)
Definition strip (s : string) : string := rstrip (lstrip s).

Definition upper_char (c : ascii) : ascii :=
  let n := nat_of_ascii c in
  if ((97 <=? n) && (n <=? 122))%nat then ascii_of_nat (n - 32) else c.

(** [str.upper()] *)
Fixpoint upper (s : string) : string :=
  match s with
  | EmptyString => EmptyString
  | String c rest => String (upper_char c) (upper rest)
  end.

(** [needle in hay] *)
Fixpoint contains (needle hay : string) : bool :=
  if String.prefix needle hay then true
  else match hay with
       | EmptyString => false
       | String _ rest => contains needle rest
       end.

End Text.

(* ===================================================================== *)
(** ** Sentiment scorer *)
(* ===================================================================== *)

Module Sentiment.
Import Text.

(** One element of the list a HuggingFace pipeline returns. *)
Record prediction : Type := { label : string; confidence : Q }.

Definition classifier : Type := string -> outcome (list prediction).

(** The collaborators as seen by one run of the app.

    - [detect] is [langdetect.detect];
    - [sentiment_en], [sentiment_zh] are the module-level handles, [None]
      when the model could not be loaded;
    - [chat] is the chat-completion call: the [message.content] of each
      returned choice, [None] for a choice without text;
    - [now i] is the clock reading during iteration [i] of a batch.

    [analyze_sentiment] is memoised per argument by the UI framework, so
    within a session each oracle is indeed consulted as a function of the
    text. *)
Record Env : Type := {
  detect : string -> outcome string;
  sentiment_en : option classifier;
  sentiment_zh : option classifier;
  chat : string -> outcome (list (option string));
  now : nat -> Z
}.

(** Module initialisation: one [try] around both loads, so a failure of
    either leaves both handles at [None]. *)
Definition init_models (en zh : outcome classifier)
  : option classifier * option classifier :=
  match en, zh with
  | Ret e, Ret z => (Some e, Some z)
  | _, _ => (None, None)
  end.

(** [xs[0]] *)
Definition first {A} (xs : list A) : outcome A :=
  match xs with
  | x :: _ => Ret x
  | [] => Raise IndexError
  end.

Local Open Scope py_scope.

(** The first [try] block.  [Some v] stands for [return v] inside the
    block, [None] for falling out of it. *)
Definition local_tier (env : Env) (lang cleaned_text : string)
  : M (option Z) :=
  match String.eqb lang "en", sentiment_en env with
  | true, Some model =>
      preds <- call (EvLocalEn cleaned_text) (model cleaned_text) ;;
      r <- ([], first preds) ;;
      ret (Some (if String.eqb (label r) "POSITIVE" then 1 else -1))
  | _, _ =>
      match String.eqb lang "zh", sentiment_zh env with
      | true, Some model =>
          preds <- call (EvLocalZh cleaned_text) (model cleaned_text) ;;
          r <- ([], first preds) ;;
          ret (Some (if String.eqb (label r) "positive" then 1 else -1))
      | _, _ => ret None
      end
  end.

(** [response.choices[0].message.content.strip().upper()] *)
Definition reply_text (choices : list (option string)) : outcome string :=
  c <~ first choices ;;
  match c with
  | Some s => Ret (upper (strip s))
  | None => Raise AttributeError
  end.

Definition keyword_score (reply : string) : Z :=
  if contains "POSITIVE" reply then 1
  else if contains "NEGATIVE" reply then -1
  else 0.

(** The second [try] block. *)
Definition remote_tier (env : Env) (detailed : bool) (cleaned_text : string)
  : M (option Z) :=
  if negb detailed then
    choices <- call (EvRemote cleaned_text) (chat env cleaned_text) ;;
    reply <- ([], reply_text choices) ;;
    ret (Some (keyword_score reply))
  else ret None.

Definition analyze_sentiment (env : Env) (text : string) (detailed : bool)
  : M Z :=
  let cleaned_text := strip_tags text in
  lang <- try_except (call (EvDetect cleaned_text) (detect env cleaned_text))
                     (ret "en") ;;
  early <- (if negb detailed
            then try_except (local_tier env lang cleaned_text) (ret None)
            else ret None) ;;
  match early with
  | Some v => ret v
  | None =>
      late <- try_except (remote_tier env detailed cleaned_text) (ret None) ;;
      match late with
      | Some v => ret v
      | None => ret 0
      end
  end.

(** The language the scorer goes on with: the detector's answer, or "en"
    when it raises. *)
Definition detected_lang (env : Env) (cleaned_text : string) : string :=
  match detect env cleaned_text with
  | Ret l => l
  | Raise _ => "en"
  end.

Definition is_score (v : Z) : Prop := v = -1 \/ v = 0 \/ v = 1.

End Sentiment.

(* ===================================================================== *)
(** ** Batch scoring *)
(* ===================================================================== *)

Module Batch.
Import Sentiment.

(** A value found in a news row: a string, or anything else (NaN, [None],
    a number), on which [re.sub] raises [TypeError]. *)
Inductive value : Type :=
| VStr (s : string)
| VOther.

(** One row of the news frame.  [None] in a field means that the frame has
    no such column. *)
Record headline : Type := {
  title : option value;
  link : option value;
  published : option Z
}.

Record SentimentResult : Type := {
  r_title : value;
  r_score : Z;
  r_label : string;
  r_time : Z
}.

(** [row['title']] *)
Definition getitem_title (row : headline) : outcome value :=
  match title row with
  | Some v => Ret v
  | None => Raise KeyError
  end.

(** [analyze_sentiment(text)] on whatever the row holds; [detailed] keeps
    its default. *)
Definition analyze_sentiment_value (env : Env) (text : value) : M Z :=
  match text with
  | VStr s => analyze_sentiment env s false
  | VOther => raise TypeError
  end.

Definition label_of (score : Z) : string :=
  if 0 <? score then "Positive"
  else if score <? 0 then "Negative"
  else "Neutral".

(** [row.get('published', datetime.now())] in iteration [i]. *)
Definition get_published (env : Env) (i : nat) (row : headline) : Z :=
  match published row with
  | Some t => t
  | None => now env i
  end.

Local Open Scope py_scope.

(** The body of the [for] loop: [results] is the list as it stands before
    iteration [i], the value is the list after it.  Nothing can raise
    between [results.append] and the end of the [try] block, so the handler
    sees the list unchanged. *)
Definition loop_body (env : Env) (i : nat) (row : headline)
  (results : list SentimentResult) : M (list SentimentResult) :=
  try_except
    (text <- ([], getitem_title row) ;;
     score <- analyze_sentiment_value env text ;;
     let label := label_of score in
     let results' :=
       results ++ [ {| r_title := text; r_score := score; r_label := label;
                       r_time := get_published env i row |} ] in
     call (EvSleep 200) (Ret tt) ;;;
     ret results')
    (ret results).

Fixpoint iterrows (env : Env) (i : nat) (rows : list headline)
  (results : list SentimentResult) : M (list SentimentResult) :=
  match rows with
  | [] => ret results
  | row :: rest =>
      results' <- loop_body env i row results ;;
      iterrows env (S i) rest results'
  end.

(** [df.head(n)]: the first [n] rows, and for a negative [n] all rows but
    the last [-n]. *)
Definition head {A} (n : Z) (rows : list A) : list A :=
  if 0 <=? n then firstn (Z.to_nat n) rows
  else firstn (List.length rows - Z.to_nat (- n)) rows.

Definition batch_sentiment_analysis (env : Env) (df : list headline)
  (max_count : Z) : M (list SentimentResult) :=
  let df_subset := head max_count df in
  iterrows env 0 df_subset [].

(** What the batch is said to compute: each headline of the list, in
    order, gives its result, or nothing when scoring it fails. *)
Definition headline_result (env : Env) (i : nat) (row : headline)
  : option SentimentResult :=
  match title row with
  | Some (VStr s) =>
      match result (analyze_sentiment env s false) with
      | Ret score =>
          Some {| r_title := VStr s; r_score := score;
                  r_label := label_of score;
                  r_time := get_published env i row |}
      | Raise _ => None
      end
  | _ => None
  end.

Fixpoint results_from (env : Env) (i : nat) (rows : list headline)
  : list SentimentResult :=
  match rows with
  | [] => []
  | row :: rest =>
      match headline_result env i row with
      | Some r => r :: results_from env (S i) rest
      | None => results_from env (S i) rest
      end
  end.

(** The titles a batch can score: the strings. *)
Definition scorable_title (row : headline) : list value :=
  match title row with
  | Some (VStr s) => [VStr s]
  | _ => []
  end.

End Batch.

(* ===================================================================== *)
(** ** Calendar dates *)
(* ===================================================================== *)

(** A calendar date is its proleptic Gregorian ordinal (day 1 is
    0001-01-01), the number [date.toordinal()] returns.  A point of a
    price history is a pandas [Timestamp]: an instant, counted in
    nanoseconds from the epoch in a signed 64-bit integer, and a time
    zone; its calendar date, weekday and month are those of the wall
    clock of its zone. *)
Module Calendar.

Definition Date : Type := Z.

(** [dayofweek]: Monday is 0, Sunday is 6. *)
Definition dayofweek (d : Date) : Z := (d + 6) mod 7.

Definition DI400Y : Z := 146097.
Definition DI100Y : Z := 36524.
Definition DI4Y : Z := 1461.

Definition DAYS_IN_MONTH : list Z :=
  [-1; 31; 28; 31; 30; 31; 30; 31; 31; 30; 31; 30; 31].
Definition DAYS_BEFORE_MONTH : list Z :=
  [-1; 0; 31; 59; 90; 120; 151; 181; 212; 243; 273; 304; 334].

Definition b2z (b : bool) : Z := if b then 1 else 0.

(** Ordinal to (year, month, day), by 400-, 100-, 4- and 1-year cycles. *)
Definition ord2ymd (ordinal : Date) : Z * Z * Z :=
  let n := ordinal - 1 in
  let n400 := n / DI400Y in
  let n := n mod DI400Y in
  let year := n400 * 400 + 1 in
  let n100 := n / DI100Y in
  let n := n mod DI100Y in
  let n4 := n / DI4Y in
  let n := n mod DI4Y in
  let n1 := n / 365 in
  let n := n mod 365 in
  let year := year + n100 * 100 + n4 * 4 + n1 in
  if (n1 =? 4) || (n100 =? 4) then (year - 1, 12, 31)
  else
    let leapyear := (n1 =? 3) && (negb (n4 =? 24) || (n100 =? 3)) in
    let month := Z.shiftr (n + 50) 5 in
    let preceding :=
      nth (Z.to_nat month) DAYS_BEFORE_MONTH 0
      + b2z ((2 <? month) && leapyear) in
    if n <? preceding then
      let month := month - 1 in
      let preceding :=
        preceding
        - (nth (Z.to_nat month) DAYS_IN_MONTH 0
           + b2z ((month =? 2) && leapyear)) in
      (year, month, n - preceding + 1)
    else (year, month, n - preceding + 1).

Definition month (d : Date) : Z :=
  let '(_, m, _) := ord2ymd d in m.

Definition is_weekend (d : Date) : bool := 5 <=? dayofweek d.

(** A time zone: the UTC offset in force before the first transition, and
    the transitions in ascending order, each an instant and the offset in
    force from it on (nanoseconds). *)
Record zone : Type := {
  base_offset : Z;
  transitions : list (Z * Z)
}.

Fixpoint offset_from (current : Z) (trs : list (Z * Z)) (t : Z) : Z :=
  match trs with
  | [] => current
  | (start, offset) :: rest =>
      if start <=? t then offset_from offset rest t else current
  end.

Definition utcoffset (z : zone) (t : Z) : Z :=
  offset_from (base_offset z) (transitions z) t.

(** No zone (a timezone-naive timestamp counts wall-clock time), or UTC. *)
Definition naive : zone := {| base_offset := 0; transitions := [] |}.

Record Timestamp : Type := {
  instant : Z;
  tz : zone
}.

Definition NS_PER_HOUR : Z := 3600000000000.
Definition NS_PER_DAY : Z := 24 * NS_PER_HOUR.

(** [Timestamp.min] and [Timestamp.max]. *)
Definition min_instant : Z := - 2 ^ 63 + 1.
Definition max_instant : Z := 2 ^ 63 - 1.

(** The ordinal of 1970-01-01. *)
Definition EPOCH_ORDINAL : Z := 719163.

(** The calendar date on the wall clock of the timestamp's zone. *)
Definition date_of (ts : Timestamp) : Date :=
  (instant ts + utcoffset (tz ts) (instant ts)) / NS_PER_DAY + EPOCH_ORDINAL.

(** [ts.dayofweek] and [ts.month] *)
Definition ts_dayofweek (ts : Timestamp) : Z := dayofweek (date_of ts).
Definition ts_month (ts : Timestamp) : Z := month (date_of ts).

(** The timestamp [days] times 24 hours later, in the same zone. *)
Definition shift (ts : Timestamp) (days : Z) : Timestamp :=
  {| instant := instant ts + days * NS_PER_DAY; tz := tz ts |}.

(** [ts + timedelta(days=days)]: a timedelta is an absolute span, also
    for a timestamp with a zone; a result that does not fit the 64 bits
    raises. *)
Definition add_timedelta (ts : Timestamp) (days : Z) : outcome Timestamp :=
  let r := shift ts days in
  if (min_instant <=? instant r) && (instant r <=? max_instant) then Ret r
  else Raise OutOfBoundsDatetime.

End Calendar.

(* ===================================================================== *)
(** ** Data frames *)
(* ===================================================================== *)

(** A frame is an index of timestamps (none of them NaT) and named
    columns of numbers.  A number is a rational, or [None] for NaN;
    binary64 rounding is not modelled. *)
Module Frame.
Import Calendar.

Definition cell : Type := option Q.

Record DataFrame : Type := {
  index : list Timestamp;
  columns : list (string * list cell)
}.

(** [pd.DataFrame()] *)
Definition empty_frame : DataFrame := {| index := []; columns := [] |}.

(** [df.empty]: some axis has length 0. *)
Definition is_empty (df : DataFrame) : bool :=
  match index df, columns df with
  | [], _ => true
  | _, [] => true
  | _, _ => false
  end.

Fixpoint lookup (name : string) (cols : list (string * list cell))
  : option (list cell) :=
  match cols with
  | [] => None
  | (k, v) :: rest => if String.eqb k name then Some v else lookup name rest
  end.

(** [name in df.columns] *)
Definition has_column (name : string) (df : DataFrame) : bool :=
  match lookup name (columns df) with
  | Some _ => true
  | None => false
  end.

(** [df[name]] *)
Definition getitem (df : DataFrame) (name : string) : outcome (list cell) :=
  match lookup name (columns df) with
  | Some v => Ret v
  | None => Raise KeyError
  end.

Fixpoint replace (name : string) (v : list cell)
  (cols : list (string * list cell)) : list (string * list cell) :=
  match cols with
  | [] => []
  | (k, w) :: rest =>
      if String.eqb k name then (k, v) :: rest
      else (k, w) :: replace name v rest
  end.

(** [df[name] = v]: an existing column keeps its place, a new one goes
    last. *)
Definition setitem (df : DataFrame) (name : string) (v : list cell)
  : DataFrame :=
  {| index := index df;
     columns := match lookup name (columns df) with
                | Some _ => replace name v (columns df)
                | None => columns df ++ [(name, v)]
                end |}.

(** [xs[-1]] *)
Definition last_item {A} (xs : list A) : outcome A :=
  match rev xs with
  | x :: _ => Ret x
  | [] => Raise IndexError
  end.

(** The observations of a column slice: its non-NaN entries. *)
Fixpoint observed (l : list cell) : list Q :=
  match l with
  | [] => []
  | Some q :: rest => q :: observed rest
  | None :: rest => observed rest
  end.

Definition Qsum (l : list Q) : Q := fold_right Qplus 0%Q l.

Definition mean (l : list Q) : Q :=
  (Qsum l / inject_Z (Z.of_nat (List.length l)))%Q.

(** The rows a window of size [w] covers at row [i]: the [w] rows that end
    with row [i] itself, or rows 0 to [i] when there are fewer. *)
Definition window (w : nat) (xs : list cell) (i : nat) : list cell :=
  firstn (S i - (S i - w)) (skipn (S i - w) xs).

(** [rolling(window=w).mean()] at row [i].  [min_periods] defaults to the
    window size: with fewer observations in the window the value is NaN. *)
Definition rolling_mean_at (w : nat) (xs : list cell) (i : nat) : cell :=
  let obs := observed (window w xs i) in
  if (w <=? List.length obs)%nat then Some (mean obs) else None.

Definition rolling_mean (w : nat) (xs : list cell) : list cell :=
  map (rolling_mean_at w xs) (seq 0 (List.length xs)).

End Frame.

(* ===================================================================== *)
(** ** Price history with moving averages *)
(* ===================================================================== *)

Module Stock.
Import Calendar Frame.

Section Fetch.

(** [yf.Ticker(symbol).history(period=period)]: a frame, or an exception
    when the provider cannot be reached. *)
Variable history : string -> string -> outcome DataFrame.

Local Open Scope py_scope.

Definition fetch_stock_data (symbol period : string) : outcome DataFrame :=
  otry
    (hist <~ history symbol period ;;
     if is_empty hist then Ret empty_frame
     else
       close <~ getitem hist "Close" ;;
       let hist := setitem hist "MA5" (rolling_mean 5 close) in
       close <~ getitem hist "Close" ;;
       let hist := setitem hist "MA20" (rolling_mean 20 close) in
       Ret hist)
    (Ret empty_frame).

End Fetch.

(** [ma] is the moving average of window [K] over the closes [c], the
    window ending at the row itself: row [i] has no value while rows 0 to
    [i] are fewer than [K]; a value is the mean of the [K] closes of rows
    [i + 1 - K] to [i]; and those [K] closes, when none is missing, do
    give a value. *)
Definition trailing_mean_column (K : nat) (c ma : list cell) : Prop :=
  List.length ma = List.length c /\
  forall i, (i < List.length c)%nat ->
    ((S i < K)%nat -> nth_error ma i = Some None) /\
    (forall m, nth_error ma i = Some (Some m) ->
       (K <= S i)%nat /\
       exists qs, List.length qs = K /\
                  firstn K (skipn (S i - K) c) = map Some qs /\
                  m = mean qs) /\
    (forall qs, (K <= S i)%nat -> List.length qs = K ->
       firstn K (skipn (S i - K) c) = map Some qs ->
       nth_error ma i = Some (Some (mean qs))).

(** The reading of "undefined until K prior points exist" in which the
    row itself does not count: row [i] has [i] rows before it. *)
Definition defined_after_prior (K : nat) (ma : list cell) : Prop :=
  forall i m, nth_error ma i = Some (Some m) -> (K <= i)%nat.

End Stock.

(* ===================================================================== *)
(** ** Trend forecaster *)
(* ===================================================================== *)

Module Forecast.
Import Calendar Frame.

(** A fitted [LinearRegression]: [coef_] and [intercept_]. *)
Record linear_model : Type := { coef : list Q; intercept : Q }.

(** The products of degree 2, in the order [PolynomialFeatures] emits
    them: [x0*x0, x0*x1, ..., x1*x1, ...]. *)
Fixpoint degree2 (xs : list Q) : list Q :=
  match xs with
  | [] => []
  | x :: rest => map (Qmult x) (x :: rest) ++ degree2 rest
  end.

(** One row of [PolynomialFeatures(degree=2)]: bias, the features, their
    products.  For two features: [1, a, b, a*a, a*b, b*b]. *)
Definition poly2 (xs : list Q) : list Q := 1%Q :: xs ++ degree2 xs.

(** [poly.fit_transform] / [poly.transform].  Input validation rejects an
    array without rows (an empty Python list is not even two-dimensional)
    with [ValueError]. *)
Definition poly_transform (X : list (list Q)) : outcome (list (list Q)) :=
  match X with
  | [] => Raise ValueError
  | _ => Ret (map poly2 X)
  end.

Fixpoint dot (a b : list Q) : Q :=
  match a, b with
  | x :: a', y :: b' => (x * y + dot a' b')%Q
  | _, _ => 0%Q
  end.

(** [model.predict]: one value per row, [row . coef_ + intercept_]. *)
Definition predict (m : linear_model) (X : list (list Q)) : list Q :=
  map (fun row => (dot row (coef m) + intercept m)%Q) X.

Definition all_observed (y : list cell) : bool :=
  forallb (fun c => match c with Some _ => true | None => false end) y.

(** [range(n)] *)
Definition range (n : Z) : list Z := map Z.of_nat (seq 0 (Z.to_nat n)).

(** [[d.dayofweek, d.month]] *)
Definition features (d : Timestamp) : list Q :=
  [inject_Z (ts_dayofweek d); inject_Z (ts_month d)].

(** A list comprehension whose elements may raise: the first exception
    ends it. *)
Fixpoint in_order {A} (l : list (outcome A)) : outcome (list A) :=
  match l with
  | [] => Ret []
  | Ret a :: rest =>
      match in_order rest with
      | Ret r => Ret (a :: r)
      | Raise e => Raise e
      end
  | Raise e :: _ => Raise e
  end.

(** [[last_date + timedelta(days=i+1) for i in range(days_ahead)]] *)
Definition future_dates (last_date : Timestamp) (days_ahead : Z)
  : outcome (list Timestamp) :=
  in_order (map (fun i => add_timedelta last_date (i + 1)) (range days_ahead)).

Section Regression.

(** The least-squares solver behind [LinearRegression.fit], total on
    finite data. *)
Variable lstsq : list (list Q) -> list Q -> linear_model.

(** [model.fit(X, y)].  Input validation raises [ValueError] when the
    target holds a NaN ("Input y contains NaN"). *)
Definition fit (X : list (list Q)) (y : list cell) : outcome linear_model :=
  if all_observed y then Ret (lstsq X (observed y))
  else Raise ValueError.

Local Open Scope py_scope.

(** The two feature columns are written into the copy [df] and read back
    as [X]; the model builds the rows of [X] from the index directly. *)
Definition predict_stock_trend (stock_data : DataFrame) (days_ahead : Z)
  : outcome DataFrame :=
  if is_empty stock_data || negb (has_column "Close" stock_data)
  then Ret empty_frame
  else
    let df := stock_data in
    let X := map features (index df) in
    y <~ getitem df "Close" ;;
    X_poly <~ poly_transform X ;;
    model <~ fit X_poly y ;;
    last_date <~ last_item (index df) ;;
    future <~ future_dates last_date days_ahead ;;
    let future_features := map features future in
    future_features_poly <~ poly_transform future_features ;;
    let preds := predict model future_features_poly in
    Ret {| index := future;
           columns := [("Predicted_Close", map Some preds)] |}.

End Regression.

(** A solver to run examples with: it ignores the features and predicts
    the mean of the targets. *)
Definition lstsq_mean (X : list (list Q)) (y : list Q) : linear_model :=
  {| coef := []; intercept := mean y |}.

End Forecast.

(* ===================================================================== *)
(** ** Concrete collaborators and inputs used in examples *)
(* ===================================================================== *)

Module Fixtures.
Import Text Sentiment Batch Calendar Frame Forecast.

Definition says (l : string) : classifier :=
  fun _ => Ret [ {| label := l; confidence := 1 |} ].

(** Both local models loaded, the English one answering POSITIVE; the
    language detector finds no features and raises; no network. *)
Definition env_local : Env := {|
  detect := fun _ => Raise LangDetectException;
  sentiment_en := Some (says "POSITIVE");
  sentiment_zh := Some (says "sports");
  chat := fun _ => Raise ExternalError;
  now := fun i => Z.of_nat i
|}.

(** No local model, the remote fallback answering " Negative. ". *)
Definition env_remote : Env := {|
  detect := fun _ => Ret "fr";
  sentiment_en := None;
  sentiment_zh := None;
  chat := fun _ => Ret [Some " Negative. "];
  now := fun i => Z.of_nat i
|}.

(** Nothing available. *)
Definition env_offline : Env := {|
  detect := fun _ => Raise LangDetectException;
  sentiment_en := None;
  sentiment_zh := None;
  chat := fun _ => Raise ExternalError;
  now := fun i => Z.of_nat i
|}.

Definition news (t : value) : headline :=
  {| title := Some t; link := Some (VStr "https://example.org");
     published := None |}.

Definition four_headlines : list headline :=
  [news (VStr "a"); news VOther; news (VStr "b"); news (VStr "c")].

Definition closes (l : list Z) : list cell :=
  map (fun z => Some (inject_Z z)) l.

(** Friday 2024-11-01 is day 739191. *)
Definition friday : Date := 739191.

(** Midnight of a calendar date, without a zone. *)
Definition day (ordinal : Date) : Timestamp :=
  {| instant := (ordinal - EPOCH_ORDINAL) * NS_PER_DAY; tz := naive |}.

(** America/New_York around 2024: UTC-5, daylight time (UTC-4) from
    2024-03-10 07:00 UTC to 2024-11-03 06:00 UTC. *)
Definition new_york : zone := {|
  base_offset := -5 * NS_PER_HOUR;
  transitions := [ (19792 * NS_PER_DAY + 7 * NS_PER_HOUR, -4 * NS_PER_HOUR);
                   (20030 * NS_PER_DAY + 6 * NS_PER_HOUR, -5 * NS_PER_HOUR) ]
|}.

(** Midnight in New York of a date in daylight time. *)
Definition new_york_day (ordinal : Date) : Timestamp :=
  {| instant := (ordinal - EPOCH_ORDINAL) * NS_PER_DAY + 4 * NS_PER_HOUR;
     tz := new_york |}.

Definition trading_week : list Date :=
  [739187; 739188; 739189; 739190; 739191].

(** Five trading days, Monday 2024-10-28 to Friday 2024-11-01. *)
Definition week : DataFrame := {|
  index := map day trading_week;
  columns := [("Close", closes [1; 2; 3; 4; 5])]
|}.

(** The same week as a New York ticker has it. *)
Definition week_in_new_york : DataFrame := {|
  index := map new_york_day trading_week;
  columns := [("Close", closes [1; 2; 3; 4; 5])]
|}.

(** The same week with the Wednesday close missing. *)
Definition week_with_gap : DataFrame := {|
  index := map day trading_week;
  columns := [("Close", [Some 1%Q; Some 2%Q; None; Some 4%Q; Some 5%Q])]
|}.

Definition week_without_close : DataFrame := {|
  index := map day trading_week;
  columns := [("Open", closes [1; 2; 3; 4; 5])]
|}.

(** One day at the very end of the timestamp range, 2262-04-11. *)
Definition last_day : DataFrame := {|
  index := [day 825914];
  columns := [("Close", closes [1])]
|}.

Definition yahoo_week (symbol period : string) : outcome DataFrame :=
  Ret week.

End Fixtures.

(* ===================================================================== *)
(** ** News feed *)
(* ===================================================================== *)

Module News.
Import Text Sentiment Batch.

(** One entry of a parsed feed.  A field is [None] when the entry has no
    such attribute; [published_parsed] may also be present and hold
    [None], when the feed's date could not be parsed. *)
Record entry : Type := {
  e_title : option string;
  e_link : option string;
  e_published_parsed : option (option Z)
}.

(** [s.replace(old, new)] for one-character [old] and [new]. *)
Fixpoint replace_char (old new : ascii) (s : string) : string :=
  match s with
  | EmptyString => EmptyString
  | String c rest =>
      String (if Ascii.eqb c old then new else c) (replace_char old new rest)
  end.

(** [s.split(sep)[0]]: the text in front of the first separator. *)
Fixpoint before (sep : ascii) (s : string) : string :=
  match s with
  | EmptyString => EmptyString
  | String c rest =>
      if Ascii.eqb c sep then EmptyString else String c (before sep rest)
  end.

Definition search_query (keyword : string) : string :=
  replace_char " "%char "+"%char keyword.

Definition feed_url (keyword language_code region_code : string) : string :=
  ("https://news.google.com/rss/search?q=" ++ search_query keyword
   ++ "&hl=" ++ language_code
   ++ "&gl=" ++ before ":"%char region_code
   ++ "&ceid=" ++ region_code)%string.

Section Fetch.

(** [feedparser.parse]: the entries of the feed at a URL. *)
Variable parse : string -> outcome (list entry).
(** [datetime.now()] during iteration [i]. *)
Variable clock : nat -> Z.

Local Open Scope py_scope.

(** The body of the inner [try]: the row built from one entry. *)
Definition entry_row (i : nat) (e : entry) : outcome headline :=
  published_date <~
    match e_published_parsed e with
    | Some (Some t) => Ret t
    | Some None => Raise TypeError          (* None[:6] *)
    | None => Ret (clock i)
    end ;;
  title <~
    match e_title e with
    | Some s => Ret (strip_tags s)
    | None => Raise AttributeError
    end ;;
  link <~
    match e_link e with
    | Some l => Ret l
    | None => Raise AttributeError
    end ;;
  Ret {| title := Some (VStr title); link := Some (VStr link);
         published := Some published_date |}.

Fixpoint collect (i : nat) (feed : list entry) (entries : list headline)
  : list headline :=
  match feed with
  | [] => entries
  | e :: rest =>
      match entry_row i e with
      | Ret row => collect (S i) rest (entries ++ [row])
      | Raise _ => collect (S i) rest entries         (* continue *)
      end
  end.

Definition fetch_google_news (keyword language_code region_code : string)
  (max_articles : Z) : outcome (list headline) :=
  otry
    (feed <~ parse (feed_url keyword language_code region_code) ;;
     Ret (collect 0 (head max_articles feed) []))
    (Ret []).

End Fetch.

(** An entry from which a row can be built. *)
Definition well_formed (e : entry) : bool :=
  match e_published_parsed e, e_title e, e_link e with
  | Some None, _, _ => false
  | _, Some _, Some _ => true
  | _, _, _ => false
  end.

End News.

(* ===================================================================== *)
(** ** Dashboard tabs *)
(* ===================================================================== *)

(** What a click on a tab's button does.  Messages are named by what they
    say; charts, tables and the download button are one [Rendered]. *)
Module Dashboard.
Import Text Sentiment Batch.

Inductive notice : Type :=
| PleaseInputText            (* st.warning *)
| SentimentPositive          (* st.success *)
| SentimentNegative          (* st.error *)
| SentimentNeutral           (* st.info *)
| NoCurrentNews              (* st.warning *)
| NoHistoricalNews           (* st.warning *)
| Analyzed (n : nat)         (* st.success *)
| Rendered
| NoResults.                 (* st.warning *)

Local Open Scope py_scope.

(** "Analyze Sentiment" pressed with [input_text] in the text area. *)
Definition sentiment_tab (env : Env) (input_text : string) : M (list notice) :=
  if String.eqb (strip input_text) "" then ret [PleaseInputText]
  else
    sentiment <- analyze_sentiment env input_text false ;;
    if sentiment =? 1 then ret [SentimentPositive]
    else if sentiment =? -1 then ret [SentimentNegative]
    else ret [SentimentNeutral].

(** How a run of the script ends. *)
Inductive ending : Type :=
| Finished
| NameError                  (* a name read before any assignment *)
| Uncaught (e : exn).

Record batch_run : Type := {
  notices : list notice;
  calls : list event;
  stored : option (list SentimentResult);   (* detailed_sentiment_df *)
  ended : ending
}.

(** The two branches that may bind [target_df]: the warning shown, and
    the frame bound, if any. *)
Definition choose_target (current_news_df historical_news_df : list headline)
  (source_choice : string) : list notice * option (list headline) :=
  if String.eqb source_choice "Current News" then
    match current_news_df with
    | [] => ([NoCurrentNews], None)
    | _ => ([], Some current_news_df)
    end
  else
    match historical_news_df with
    | [] => ([NoHistoricalNews], None)
    | _ => ([], Some historical_news_df)
    end.

(** "Run Batch Analysis" pressed. *)
Definition batch_tab (env : Env)
  (current_news_df historical_news_df : list headline)
  (source_choice : string) (article_count : Z) : batch_run :=
  let (warned, target) :=
    choose_target current_news_df historical_news_df source_choice in
  match target with
  | None =>
      {| notices := warned; calls := []; stored := None;
         ended := NameError |}
  | Some target_df =>
      match batch_sentiment_analysis env target_df article_count with
      | (t, Ret []) =>
          {| notices := warned ++ [NoResults]; calls := t; stored := None;
             ended := Finished |}
      | (t, Ret results_df) =>
          {| notices :=
               warned ++ [Analyzed (List.length results_df); Rendered];
             calls := t; stored := Some results_df; ended := Finished |}
      | (t, Raise e) =>
          {| notices := warned; calls := t; stored := None;
             ended := Uncaught e |}
      end
  end.

End Dashboard.

(* ===================================================================== *)
(** ** Vocabulary for statements about traces and results *)
(* ===================================================================== *)

Module Observe.
Import Text Sentiment Batch.

Definition event_text (ev : event) : option string :=
  match ev with
  | EvDetect t | EvLocalEn t | EvLocalZh t | EvRemote t => Some t
  | EvSleep _ => None
  end.

Definition is_remote (ev : event) : bool :=
  match ev with EvRemote _ => true | _ => false end.

Definition is_local (ev : event) : bool :=
  match ev with EvLocalEn _ | EvLocalZh _ => true | _ => false end.

Definition is_sleep (ev : event) : bool :=
  match ev with EvSleep _ => true | _ => false end.

Definition count (p : event -> bool) (t : list event) : nat :=
  List.length (filter p t).

(** What the remote tier makes of the reply to [t]: the keyword score of
    the first choice, 0 when the call or its unpacking fails. *)
Definition remote_verdict (env : Env) (t : string) : Z :=
  match chat env t with
  | Ret (Some s :: _) => keyword_score (upper (strip s))
  | _ => 0
  end.

(** What the local tier makes of [t] in language [lang]: the verdict of
    the model of that language, if it is loaded and yields a prediction. *)
Definition local_verdict (env : Env) (lang t : string) : option Z :=
  match String.eqb lang "en", sentiment_en env with
  | true, Some model =>
      match model t with
      | Ret (p :: _) => Some (if String.eqb (label p) "POSITIVE" then 1 else -1)
      | _ => None
      end
  | _, _ =>
      match String.eqb lang "zh", sentiment_zh env with
      | true, Some model =>
          match model t with
          | Ret (p :: _) =>
              Some (if String.eqb (label p) "positive" then 1 else -1)
          | _ => None
          end
      | _, _ => None
      end
  end.

(** What may follow the detector's call in one scoring: at most one
    local model, then at most one remote call, all on the text [t]. *)
Definition call_shapes (t : string) : list (list event) :=
  [ []; [EvLocalEn t]; [EvLocalZh t]; [EvRemote t];
    [EvLocalEn t; EvRemote t]; [EvLocalZh t; EvRemote t] ].

(** The calls one row of a batch causes. *)
Definition row_trace (env : Env) (row : headline) : list event :=
  match title row with
  | Some (VStr s) => trace (analyze_sentiment env s false) ++ [EvSleep 200]
  | _ => []
  end.

Definition has_char (c : ascii) (s : string) : bool :=
  existsb (Ascii.eqb c) (list_ascii_of_string s).

Definition bytes (l : list nat) : string :=
  string_of_list_ascii (map ascii_of_nat l).

(** The 29 code points for which [str.isspace] holds, in UTF-8. *)
Definition unicode_spaces : list string :=
  map bytes
    [ [9]; [10]; [11]; [12]; [13]; [28]; [29]; [30]; [31]; [32];
      [194; 133]; [194; 160]; [225; 154; 128];
      [226; 128; 128]; [226; 128; 129]; [226; 128; 130]; [226; 128; 131];
      [226; 128; 132]; [226; 128; 133]; [226; 128; 134]; [226; 128; 135];
      [226; 128; 136]; [226; 128; 137]; [226; 128; 138];
      [226; 128; 168]; [226; 128; 169]; [226; 128; 175];
      [226; 129; 159]; [227; 128; 128] ]%nat.

(** The text made of the given pieces, one after the other. *)
Definition join (pieces : list string) : string :=
  fold_right String.append "" pieces.

End Observe.

(* ===================================================================== *)
(** ** Vocabulary for statements about forecasts *)
(* ===================================================================== *)

Module Outlook.
Import Calendar Frame Forecast.

(** The frame a successful forecast is: the future dates and the model's
    value at each of them. *)
Definition forecast_frame (model : linear_model) (future : list Timestamp)
  : DataFrame :=
  {| index := future;
     columns :=
       [("Predicted_Close",
         map Some (predict model (map poly2 (map features future))))] |}.

(** The timestamps 1, 2, ..., N days after [last]. *)
Definition steps (last : Timestamp) (N : Z) : list Timestamp :=
  map (fun i => shift last (i + 1)) (range N).

(** The six terms of [PolynomialFeatures(degree=2)] for a weekday [w]
    and a month [m]. *)
Definition terms (w m : Z) : list Q :=
  [1; inject_Z w; inject_Z m; inject_Z w * inject_Z w;
   inject_Z w * inject_Z m; inject_Z m * inject_Z m]%Q.

(** The UTC offset of [last]'s zone is at each of the N steps what it is
    at [last]: no zone, a fixed offset, or no change of time in between. *)
Definition steady_offset (last : Timestamp) (N : Z) : Prop :=
  forall k, 1 <= k <= N ->
    utcoffset (tz last) (instant last + k * NS_PER_DAY)
    = utcoffset (tz last) (instant last).

(** The last timestamp is valid and N days later still fits the range. *)
Definition within_range (last : Timestamp) (N : Z) : Prop :=
  min_instant <= instant last /\
  instant last + N * NS_PER_DAY <= max_instant.

(** The model fitted on a history with closes [y]. *)
Definition fitted (lstsq : list (list Q) -> list Q -> linear_model)
  (df : DataFrame) (y : list cell) : linear_model :=
  lstsq (map poly2 (map features (index df))) (observed y).

End Outlook.

(* ===================================================================== *)
(** ** A sample feed *)
(* ===================================================================== *)

Module Samples.
Import Text Sentiment Batch News Calendar Frame Fixtures.

Definition item (t : string) : entry :=
  {| e_title := Some t; e_link := Some "https://example.org/a";
     e_published_parsed := Some (Some 1700000000) |}.

(** Three entries: one with markup, one whose date did not parse, one
    without a date. *)
Definition sample_feed : list entry :=
  [ item "<b>Xiaomi</b> up";
    {| e_title := Some "broken"; e_link := Some "https://example.org/b";
       e_published_parsed := Some None |};
    {| e_title := Some "EV sales"; e_link := Some "https://example.org/c";
       e_published_parsed := None |} ].

Definition sample_parse (url : string) : outcome (list entry) :=
  Ret sample_feed.

Definition sample_clock (i : nat) : Z := 1700000100 + Z.of_nat i.

(** The rows fetched from the sample feed. *)
Definition sample_rows : list headline :=
  [ {| title := Some (VStr "Xiaomi up");
       link := Some (VStr "https://example.org/a");
       published := Some 1700000000 |};
    {| title := Some (VStr "EV sales");
       link := Some (VStr "https://example.org/c");
       published := Some 1700000102 |} ].

(** A history with closes and one more column. *)
Definition week_with_open : DataFrame := {|
  index := map day [739187; 739188; 739189; 739190; 739191];
  columns := [("Open", map (fun z => Some (inject_Z z)) [1; 2; 3; 4; 5]);
              ("Close", map (fun z => Some (inject_Z z)) [1; 2; 3; 4; 5])]
|}.

End Samples.

(* ===================================================================== *)
(** ** The model on concrete inputs *)
(* ===================================================================== *)

Module ModelChecks.
Import Text Sentiment Batch Calendar Frame Stock Forecast Fixtures Observe.

Example strip_tags_markup :
  map strip_tags ["<b>hi</b> there"; "a < b > c"; "<>a>"; "<<x>>"; "a<b"]
  = ["hi there"; "a  c"; "<>a>"; ">"; "a<b"].
Proof. reflexivity. Qed.

Example positive_checked_first :
  keyword_score (upper (strip " negative? no: Positive ")) = 1 /\
  keyword_score (upper (strip " Negative. ")) = -1 /\
  keyword_score (upper (strip "neutral")) = 0.
Proof. repeat split; reflexivity. Qed.

Example one_failed_load_unloads_both (en : classifier) :
  init_models (Ret en) (Raise ExternalError) = (None, None).
Proof. reflexivity. Qed.

Example remote_only_run :
  analyze_sentiment env_remote "<i>profits</i> fall" false
  = ([EvDetect "profits fall"; EvRemote "profits fall"], Ret (-1)).
Proof. reflexivity. Qed.

Example strip_knows_unicode_spaces :
  strip (bytes [194; 160]%nat ++ " a b"
         ++ bytes [227; 128; 128; 32]%nat)%string
  = "a b" /\
  strip (bytes [194; 160; 226; 128; 137]%nat) = "" /\
  strip (bytes [195; 160; 32]%nat) = bytes [195; 160]%nat.
Proof. repeat split; vm_compute; reflexivity. Qed.

Example new_york_clocks_go_back :
  map (fun d => option_map date_of (match add_timedelta (new_york_day friday) d
                                    with Ret t => Some t | Raise _ => None end))
      [1; 2; 3; 4]
  = [Some 739192; Some 739193; Some 739193; Some 739194].
Proof. vm_compute. reflexivity. Qed.

Example no_day_after_the_last :
  add_timedelta (day 825914) 1 = Raise OutOfBoundsDatetime.
Proof. vm_compute. reflexivity. Qed.

Example head_counts_from_the_end : head (-1) [1; 2; 3] = [1; 2].
Proof. reflexivity. Qed.

Example batch_skips_second_row :
  map r_title (match result (batch_sentiment_analysis env_remote
                               four_headlines 3) with
               | Ret rs => rs
               | Raise _ => []
               end)
  = [VStr "a"; VStr "b"].
Proof. reflexivity. Qed.

Example friday_is_2024_11_01 :
  ord2ymd friday = (2024, 11, 1) /\ dayofweek friday = 4.
Proof. split; reflexivity. Qed.

Example leap_day : ord2ymd 738945 = (2024, 2, 29) /\ month 738946 = 3.
Proof. split; reflexivity. Qed.

Example poly2_two_features :
  poly2 [inject_Z 2; inject_Z 3]
  = [1; inject_Z 2; inject_Z 3; 2 * 2; 2 * 3; 3 * 3]%Q.
Proof. reflexivity. Qed.

Example rolling_mean_skips_gaps :
  rolling_mean 2 [Some 1%Q; None; Some 3%Q; Some 4%Q]
  = [None; None; None; Some ((3 + (4 + 0)) / 2)%Q].
Proof. reflexivity. Qed.

Example no_forecast_for_zero_days :
  predict_stock_trend lstsq_mean week 0 = Raise ValueError.
Proof. reflexivity. Qed.

End ModelChecks.

(* ===================================================================== *)
(** ** Properties of the sentiment scorer *)
(* ===================================================================== *)

Module SentimentFacts.
Import Text Sentiment Fixtures.

(** Case analysis on an innermost term the goal matches on. *)
Ltac break_match :=
  match goal with
  | |- context [match ?x with _ => _ end] =>
      lazymatch x with
      | context [match _ with _ => _ end] => fail
      | _ => destruct x eqn:?
      end
  end.

Ltac run_cases := cbn; repeat (break_match; cbn).

#[local] Arguments local_tier : simpl never.
#[local] Arguments remote_tier : simpl never.

Lemma keyword_score_range (reply : string) : is_score (keyword_score reply).
Proof.
  unfold keyword_score, is_score.
  destruct (contains "POSITIVE" reply); [lia|].
  destruct (contains "NEGATIVE" reply); lia.
Qed.

(** The local tier never raises past its [try], and what it returns is
    +1 or -1. *)
Lemma local_tier_guarded (env : Env) (lang t : string) :
  exists tr r,
    try_except (local_tier env lang t) (ret None) = (tr, Ret r) /\
    (r = None \/ r = Some 1 \/ r = Some (-1)).
Proof.
  unfold local_tier.
  run_cases; eexists; eexists; (split; [reflexivity | auto]).
Qed.

Lemma remote_tier_guarded (env : Env) (detailed : bool) (t : string) :
  exists tr r,
    try_except (remote_tier env detailed t) (ret None) = (tr, Ret r) /\
    (r = None \/ exists v, r = Some v /\ is_score v).
Proof.
  unfold remote_tier.
  destruct detailed; cbn.
  - eexists; eexists; split; [reflexivity | auto].
  - destruct (chat env t) as [[|[s|] cs]|e]; cbn;
      eexists; eexists; (split; [reflexivity|]); auto.
    right. eexists; split; [reflexivity | apply keyword_score_range].
Qed.

(** How one call unfolds, with the two guarded tiers kept abstract. *)
Lemma analyze_sentiment_unfold (env : Env) (text : string) (detailed : bool) :
  result (analyze_sentiment env text detailed) =
  let t := strip_tags text in
  let lang := detected_lang env t in
  match (if negb detailed
         then result (try_except (local_tier env lang t) (ret None))
         else Ret None) with
  | Ret (Some v) => Ret v
  | Ret None =>
      match result (try_except (remote_tier env detailed t) (ret None)) with
      | Ret (Some v) => Ret v
      | Ret None => Ret 0
      | Raise e => Raise e
      end
  | Raise e => Raise e
  end.
Proof.
  unfold analyze_sentiment, detected_lang. cbn zeta.
  set (t := strip_tags text).
  destruct (local_tier_guarded env
              (match detect env t with Ret l => l | Raise _ => "en" end) t)
    as (tr1 & r1 & E1 & _).
  destruct (remote_tier_guarded env detailed t) as (tr2 & r2 & E2 & _).
  destruct (detect env t) as [l|e]; cbn;
    destruct detailed; cbn; rewrite ?E1, ?E2; cbn;
    try (destruct r1 as [v1|]; cbn; [reflexivity|]);
    rewrite ?E2; cbn; destruct r2 as [v2|]; reflexivity.
Qed.

(** Every call returns, and returns a score. *)
Lemma analyze_sentiment_score (env : Env) (text : string) (detailed : bool) :
  exists v, result (analyze_sentiment env text detailed) = Ret v /\ is_score v.
Proof.
  rewrite analyze_sentiment_unfold. cbn zeta.
  set (t := strip_tags text). set (lang := detected_lang env t).
  destruct (local_tier_guarded env lang t) as (tr1 & r1 & E1 & R1).
  destruct (remote_tier_guarded env detailed t) as (tr2 & r2 & E2 & R2).
  rewrite E2. unfold result, is_score. cbn [snd].
  assert (Hremote : exists v,
            match r2 with Some v => Ret v | None => Ret 0 end = Ret v /\
            (v = -1 \/ v = 0 \/ v = 1)).
  { destruct R2 as [-> | (v & -> & Hv)]; eexists; split;
      try reflexivity; auto. }
  destruct detailed; cbn [negb]; [exact Hremote|].
  rewrite E1. cbn [snd].
  destruct R1 as [-> | [-> | ->]]; [exact Hremote | |];
    eexists; split; try reflexivity; auto.
Qed.

(** C4.  For every text, every value of the [detailed] flag and every
    behaviour of the language detector, the local classifiers and the
    remote fallback (answers or exceptions alike), [analyze_sentiment]
    returns normally and its value is -1, 0 or 1. *)
Theorem analyze_sentiment_range (env : Env) (text : string) (detailed : bool) :
  exists v, result (analyze_sentiment env text detailed) = Ret v /\
            (v = -1 \/ v = 0 \/ v = 1).
Proof. exact (analyze_sentiment_score env text detailed). Qed.

(** C6.  With [detailed=True] every text scores 0, and the only
    collaborator called is the language detector: the trace holds neither
    a local-classifier nor a remote-fallback call. *)
Theorem analyze_sentiment_detailed (env : Env) (text : string) :
  result (analyze_sentiment env text true) = Ret 0 /\
  trace (analyze_sentiment env text true) = [EvDetect (strip_tags text)].
Proof.
  unfold analyze_sentiment. cbn zeta.
  destruct (detect env (strip_tags text)); split; reflexivity.
Qed.

(** What the local tier answers once a model has produced a prediction. *)
Lemma local_tier_answer (env : Env) (lang pos t : string)
  (model : classifier) (p : prediction) (rest : list prediction) :
  (lang = "en" /\ sentiment_en env = Some model /\ pos = "POSITIVE") \/
  (lang = "zh" /\ sentiment_zh env = Some model /\ pos = "positive") ->
  model t = Ret (p :: rest) ->
  result (try_except (local_tier env lang t) (ret None)) =
  Ret (Some (if String.eqb (label p) pos then 1 else -1)).
Proof.
  intros [(-> & Hm & ->) | (-> & Hm & ->)] Hp; unfold local_tier;
    cbn [String.eqb Ascii.eqb Bool.eqb andb]; rewrite Hm; cbn; rewrite Hp;
    reflexivity.
Qed.

(** C10.  When the local tier handles a text (the language the scorer goes
    on with is "en" or "zh", that language's model is loaded and its
    inference yields a prediction), the score is +1 or -1 and never 0:
    +1 exactly when the label is the positive one ("POSITIVE" for English,
    "positive" for Chinese), -1 for every other label. *)
Theorem local_tier_never_neutral (env : Env) (text lang pos : string)
  (model : classifier) (p : prediction) (rest : list prediction) :
  detected_lang env (strip_tags text) = lang ->
  (lang = "en" /\ sentiment_en env = Some model /\ pos = "POSITIVE") \/
  (lang = "zh" /\ sentiment_zh env = Some model /\ pos = "positive") ->
  model (strip_tags text) = Ret (p :: rest) ->
  let r := result (analyze_sentiment env text false) in
  (r = Ret 1 \/ r = Ret (-1)) /\ r <> Ret 0 /\
  (r = Ret 1 <-> label p = pos) /\ (r = Ret (-1) <-> label p <> pos).
Proof.
  intros Hlang Hloaded Hp r. subst r.
  rewrite analyze_sentiment_unfold. cbn zeta. cbn [negb]. rewrite Hlang.
  rewrite (local_tier_answer env lang pos _ model p rest Hloaded Hp).
  destruct (String.eqb_spec (label p) pos) as [E|E].
  - split; [left; reflexivity|]. split; [discriminate|].
    split; [tauto|]. split; [discriminate | intros H; contradiction].
  - split; [right; reflexivity|]. split; [discriminate|].
    split; [|tauto]. split; [discriminate | intros H; contradiction].
Qed.

Lemma local_tier_never_neutral_witness :
  let r := result (analyze_sentiment env_local "<b>up</b>" false) in
  (r = Ret 1 \/ r = Ret (-1)) /\ r <> Ret 0 /\
  (r = Ret 1 <-> "POSITIVE" = "POSITIVE") /\
  (r = Ret (-1) <-> "POSITIVE" <> "POSITIVE").
Proof.
  apply (local_tier_never_neutral env_local "<b>up</b>" "en" "POSITIVE"
           (says "POSITIVE") {| label := "POSITIVE"; confidence := 1 |} []).
  - reflexivity.
  - left. repeat split; reflexivity.
  - reflexivity.
Defined.

(** C1, as stated, fails: on the empty text the detector finds nothing,
    the scorer goes on with "en", and a loaded English model answers; with
    no local model the remote reply decides. *)
Lemma empty_text_scored_by_tiers :
  result (analyze_sentiment env_local "" false) = Ret 1 /\
  result (analyze_sentiment env_remote "" false) = Ret (-1).
Proof. split; reflexivity. Qed.

End SentimentFacts.

(* ===================================================================== *)
(** ** Properties of batch scoring *)
(* ===================================================================== *)

Module BatchFacts.
Import Text Sentiment Batch Fixtures SentimentFacts.

Lemma result_bind {A B} (m : M A) (f : A -> M B) :
  result (bind m f) =
  match result m with
  | Ret a => result (f a)
  | Raise e => Raise e
  end.
Proof.
  destruct m as [t [a|e]]; cbn; [|reflexivity].
  destruct (f a); reflexivity.
Qed.

Lemma headline_result_scorable (env : Env) (i : nat) (row : headline) :
  map r_title
    (match headline_result env i row with Some r => [r] | None => [] end)
  = scorable_title row.
Proof.
  unfold headline_result, scorable_title.
  destruct (title row) as [[s|]|]; try reflexivity.
  destruct (analyze_sentiment_score env s false) as (v & -> & _).
  reflexivity.
Qed.

(** One iteration appends the headline's result, or nothing. *)
Lemma loop_body_result (env : Env) (i : nat) (row : headline)
  (acc : list SentimentResult) :
  result (loop_body env i row acc) =
  Ret (acc ++ match headline_result env i row with
              | Some r => [r]
              | None => []
              end).
Proof.
  unfold loop_body, headline_result, getitem_title, analyze_sentiment_value.
  destruct (title row) as [[s|]|]; cbn; rewrite ?app_nil_r; try reflexivity.
  destruct (analyze_sentiment_score env s false) as (v & Hv & _).
  unfold result in Hv |- *.
  destruct (analyze_sentiment env s false) as [tr o]. cbn in Hv. subst o.
  reflexivity.
Qed.

Lemma iterrows_result (env : Env) (rows : list headline) :
  forall (i : nat) (acc : list SentimentResult),
    result (iterrows env i rows acc) = Ret (acc ++ results_from env i rows).
Proof.
  induction rows as [|row rest IH]; intros i acc; cbn [iterrows results_from].
  - cbn. now rewrite app_nil_r.
  - rewrite result_bind, loop_body_result, IH.
    destruct (headline_result env i row); rewrite <- app_assoc; reflexivity.
Qed.

Lemma results_from_length (env : Env) (rows : list headline) :
  forall i, (List.length (results_from env i rows) <= List.length rows)%nat.
Proof.
  induction rows as [|row rest IH]; intros i; cbn; [lia|].
  destruct (headline_result env i row); cbn; specialize (IH (S i)); lia.
Qed.

Lemma results_from_titles (env : Env) (rows : list headline) :
  forall i, map r_title (results_from env i rows)
            = flat_map scorable_title rows.
Proof.
  induction rows as [|row rest IH]; intros i; cbn [results_from flat_map];
    [reflexivity|].
  rewrite <- (headline_result_scorable env i row), <- (IH (S i)).
  destruct (headline_result env i row); reflexivity.
Qed.

Lemma head_of_nat {A} (K : nat) (rows : list A) :
  head (Z.of_nat K) rows = firstn K rows.
Proof.
  unfold head.
  destruct (Z.leb_spec 0 (Z.of_nat K)); [|lia].
  now rewrite Nat2Z.id.
Qed.

(** C8.  For every headline sequence and every limit K, the batch returns
    normally; its results are those of the first K headlines, taken in
    order, a headline whose scoring fails contributing nothing and every
    other one its result (so there are at most K of them, their titles
    being the scorable titles of the prefix in input order); headlines
    past the first K influence neither the results nor the calls made. *)
Theorem batch_scores_prefix (env : Env) (df : list headline) (K : nat) :
  exists results,
    result (batch_sentiment_analysis env df (Z.of_nat K)) = Ret results /\
    results = results_from env 0 (firstn K df) /\
    (List.length results <= K)%nat /\
    map r_title results = flat_map scorable_title (firstn K df) /\
    (forall df', firstn K df' = firstn K df ->
       batch_sentiment_analysis env df' (Z.of_nat K)
       = batch_sentiment_analysis env df (Z.of_nat K)).
Proof.
  exists (results_from env 0 (firstn K df)).
  unfold batch_sentiment_analysis. cbn zeta. rewrite head_of_nat.
  split; [apply iterrows_result|].
  split; [reflexivity|].
  split.
  { etransitivity; [apply results_from_length|].
    rewrite length_firstn. lia. }
  split; [apply results_from_titles|].
  intros df' E. now rewrite !head_of_nat, E.
Qed.

End BatchFacts.

(* ===================================================================== *)
(** ** Properties of the trend forecaster *)
(* ===================================================================== *)

Module ForecastFacts.
Import Calendar Frame Forecast Outlook Fixtures.

Lemma last_item_nonempty {A} (x : A) (l : list A) :
  exists d, last_item (x :: l) = Ret d.
Proof.
  unfold last_item. cbn [rev].
  destruct (rev l ++ [x]) as [|d l'] eqn:E.
  - apply app_eq_nil in E. destruct E as [_ E]. discriminate.
  - now exists d.
Qed.

Lemma is_empty_false (df : DataFrame) :
  is_empty df = false -> exists d l, index df = d :: l.
Proof.
  unfold is_empty. destruct (index df) as [|d l]; [discriminate|].
  intros _. now exists d, l.
Qed.

Lemma rows_and_column_nonempty (df : DataFrame) (name : string)
  (d : Timestamp) (l : list Timestamp) (y : list cell) :
  index df = d :: l ->
  lookup name (columns df) = Some y ->
  is_empty df = false.
Proof.
  unfold is_empty. intros -> H.
  destruct (columns df); [discriminate H | reflexivity].
Qed.

Lemma range_length (n : Z) : List.length (range n) = Z.to_nat n.
Proof. unfold range. now rewrite length_map, length_seq. Qed.

Lemma range_nth (n : Z) (i : nat) :
  (i < Z.to_nat n)%nat -> nth_error (range n) i = Some (Z.of_nat i).
Proof.
  intros H. unfold range.
  rewrite nth_error_map, nth_error_seq.
  destruct (Nat.ltb_spec i (Z.to_nat n)); [reflexivity | lia].
Qed.

Lemma range_bounds (n x : Z) : In x (range n) -> 0 <= x < n.
Proof.
  unfold range. intros H. apply in_map_iff in H.
  destruct H as (i & <- & Hi). apply in_seq in Hi. lia.
Qed.

Lemma steps_length (last : Timestamp) (n : Z) :
  List.length (steps last n) = Z.to_nat n.
Proof. unfold steps. now rewrite length_map, range_length. Qed.

Lemma steps_nth (last : Timestamp) (n : Z) (i : nat) :
  (i < Z.to_nat n)%nat ->
  nth_error (steps last n) i = Some (shift last (Z.of_nat i + 1)).
Proof.
  intros H. unfold steps.
  now rewrite nth_error_map, (range_nth n i H).
Qed.

Lemma steps_nonempty (last : Timestamp) (n : Z) :
  1 <= n -> exists d l, steps last n = d :: l.
Proof.
  intros H. pose proof (steps_length last n) as L.
  destruct (steps last n) as [|d l]; [cbn in L; lia|].
  now exists d, l.
Qed.

Lemma shift_shift (ts : Timestamp) (a b : Z) :
  shift (shift ts a) b = shift ts (a + b).
Proof.
  unfold shift. cbn [instant tz].
  apply (f_equal (fun t => {| instant := t; tz := tz ts |})). lia.
Qed.

(** A comprehension all of whose elements return. *)
Lemma in_order_all {A B} (f : A -> outcome B) (g : A -> B) (l : list A) :
  (forall x, In x l -> f x = Ret (g x)) ->
  in_order (map f l) = Ret (map g l).
Proof.
  induction l as [|x l IH]; intros H; cbn [map in_order]; [reflexivity|].
  rewrite (H x (or_introl eq_refl)), IH; [reflexivity|].
  intros y Hy. apply H. now right.
Qed.

Lemma in_order_returned {A B} (f : A -> outcome B) (g : A -> B)
  (l : list A) :
  (forall x y, f x = Ret y -> y = g x) ->
  forall r, in_order (map f l) = Ret r -> r = map g l.
Proof.
  intros H. induction l as [|x l IH]; intros r; cbn [map in_order].
  - intros E. now injection E as <-.
  - destruct (f x) as [y|e] eqn:Ex; [|discriminate].
    destruct (in_order (map f l)) as [r'|e]; [|discriminate].
    intros E. injection E as <-. now rewrite (H x y Ex), (IH r' eq_refl).
Qed.

Lemma add_timedelta_returned (ts r : Timestamp) (k : Z) :
  add_timedelta ts k = Ret r -> r = shift ts k.
Proof.
  unfold add_timedelta. cbn zeta.
  destruct (_ && _); [|discriminate]. intros E. now injection E.
Qed.

Lemma add_timedelta_within (ts : Timestamp) (k : Z) :
  min_instant <= instant ts + k * NS_PER_DAY <= max_instant ->
  add_timedelta ts k = Ret (shift ts k).
Proof.
  intros [H1 H2]. unfold add_timedelta. cbn zeta. cbn [shift instant].
  apply Z.leb_le in H1, H2. now rewrite H1, H2.
Qed.

(** Within the range every step exists. *)
Lemma future_dates_within (last : Timestamp) (N : Z) :
  within_range last N -> future_dates last N = Ret (steps last N).
Proof.
  intros [Hmin Hmax]. unfold future_dates, steps.
  apply in_order_all. intros x Hx. apply range_bounds in Hx.
  apply add_timedelta_within.
  unfold NS_PER_DAY, NS_PER_HOUR in *. lia.
Qed.

Lemma future_dates_returned (last : Timestamp) (N : Z)
  (future : list Timestamp) :
  future_dates last N = Ret future -> future = steps last N.
Proof.
  unfold future_dates, steps.
  apply (in_order_returned (fun i => add_timedelta last (i + 1))
           (fun i => shift last (i + 1))).
  intros x y. apply add_timedelta_returned.
Qed.

Lemma dayofweek_add (d : Date) (k : Z) :
  dayofweek (d + k) = (dayofweek d + k) mod 7.
Proof.
  unfold dayofweek.
  rewrite Zplus_mod_idemp_l. f_equal. lia.
Qed.

(** With the same offset at both ends, k steps of 24 hours are k
    calendar days. *)
Lemma date_of_shift (last : Timestamp) (k : Z) :
  utcoffset (tz last) (instant last + k * NS_PER_DAY)
  = utcoffset (tz last) (instant last) ->
  date_of (shift last k) = date_of last + k.
Proof.
  intros H. unfold date_of, shift. cbn [instant tz]. rewrite H.
  replace (instant last + k * NS_PER_DAY
           + utcoffset (tz last) (instant last))
    with (instant last + utcoffset (tz last) (instant last)
          + k * NS_PER_DAY) by lia.
  rewrite Z.div_add by (unfold NS_PER_DAY, NS_PER_HOUR; lia). lia.
Qed.

Section WithSolver.

Variable lstsq : list (list Q) -> list Q -> linear_model.

(** On a history the regression accepts, and a positive horizon within
    the timestamp range, the forecaster runs to the end, and this is its
    value. *)
Lemma predict_stock_trend_runs (df : DataFrame) (N : Z) (y : list cell)
  (last : Timestamp) :
  is_empty df = false ->
  lookup "Close" (columns df) = Some y ->
  all_observed y = true ->
  1 <= N ->
  last_item (index df) = Ret last ->
  within_range last N ->
  predict_stock_trend lstsq df N =
  Ret (forecast_frame (fitted lstsq df y) (steps last N)).
Proof.
  intros Hne Hclose Hobs HN Hlast Hrange.
  unfold predict_stock_trend, has_column, getitem, fit, forecast_frame,
    fitted.
  rewrite Hne, Hclose. cbn [negb orb obind].
  destruct (is_empty_false df Hne) as (d & l & Hidx).
  rewrite Hidx in *. cbn [map poly_transform obind].
  rewrite Hobs. cbn [obind]. rewrite Hlast. cbn [obind].
  rewrite (future_dates_within last N Hrange). cbn [obind].
  destruct (steps_nonempty last N HN) as (d' & l' & ->).
  reflexivity.
Qed.

(** A returned frame of a history with closes carries the steps. *)
Lemma predict_stock_trend_index (df out : DataFrame) (N : Z)
  (last : Timestamp) :
  predict_stock_trend lstsq df N = Ret out ->
  has_column "Close" df = true ->
  last_item (index df) = Ret last ->
  index out = steps last N.
Proof.
  unfold predict_stock_trend, has_column, getitem, fit.
  intros H Hclose Hlast.
  destruct (index df) as [|d l] eqn:Hidx; [discriminate Hlast|].
  destruct (lookup "Close" (columns df)) as [y|] eqn:Hy; [|discriminate].
  rewrite (rows_and_column_nonempty df "Close" d l y Hidx Hy) in H.
  cbn [negb orb obind map poly_transform] in H.
  destruct (all_observed y); cbn [obind] in H; [|discriminate].
  rewrite Hlast in H. cbn [obind] in H.
  destruct (future_dates last N) as [future|e] eqn:Hf;
    cbn [obind] in H; [|discriminate].
  destruct (poly_transform (map features future));
    cbn [obind] in H; [|discriminate].
  injection H as <-. cbn [index]. now apply future_dates_returned.
Qed.

End WithSolver.

(** C2, as stated, fails twice over.  A non-empty history with a Close
    column one of whose closes is missing makes the fit raise
    [ValueError], so no forecast point is returned.  And from a history in
    New York time that ends on Friday 2024-11-01, the second and the third
    forecast timestamps (48 and 72 hours later, the clocks going back in
    between) fall on the same calendar day, Sunday 2024-11-03. *)
Lemma forecast_breaks_consecutive_days :
  (is_empty week_with_gap = false /\
   has_column "Close" week_with_gap = true /\
   predict_stock_trend lstsq_mean week_with_gap 7 = Raise ValueError) /\
  (exists out d1 d2,
     predict_stock_trend lstsq_mean week_in_new_york 7 = Ret out /\
     nth_error (index out) 1 = Some d1 /\
     nth_error (index out) 2 = Some d2 /\
     date_of d1 = 739193 /\ date_of d2 = 739193).
Proof.
  split; [repeat split; reflexivity|].
  eexists. eexists. eexists.
  split; [vm_compute; reflexivity|].
  split; [reflexivity|]. split; [reflexivity|].
  split; vm_compute; reflexivity.
Qed.

(** C2, amended.  For every non-empty history whose Close column has no
    missing value and every horizon N >= 1 such that the last historical
    timestamp is valid and N days later still fits the timestamp range,
    [predict_stock_trend] returns exactly N forecast points, one predicted
    close per timestamp; the timestamps are in the zone of the last
    historical one and strictly increasing in steps of exactly 24 hours,
    the first 24 hours after the last historical timestamp.  When the UTC
    offset of the index is the same at each of them as at the last
    historical timestamp (no zone, or no change of time in between), they
    fall on N consecutive calendar days, the first being the day after the
    last historical date. *)
Theorem forecast_dates_consecutive
  (lstsq : list (list Q) -> list Q -> linear_model)
  (df : DataFrame) (N : Z) (y : list cell) (last : Timestamp) :
  is_empty df = false ->
  lookup "Close" (columns df) = Some y ->
  all_observed y = true ->
  1 <= N ->
  last_item (index df) = Ret last ->
  within_range last N ->
  exists out preds,
    predict_stock_trend lstsq df N = Ret out /\
    Z.of_nat (List.length (index out)) = N /\
    (forall i, (i < List.length (index out))%nat ->
       nth_error (index out) i = Some (shift last (Z.of_nat i + 1))) /\
    (forall i d d', nth_error (index out) i = Some d ->
       nth_error (index out) (S i) = Some d' -> d' = shift d 1) /\
    lookup "Predicted_Close" (columns out) = Some preds /\
    List.length preds = List.length (index out) /\
    (steady_offset last N ->
     forall i d, nth_error (index out) i = Some d ->
       date_of d = date_of last + Z.of_nat i + 1).
Proof.
  intros Hne Hclose Hobs HN Hlast Hrange.
  eexists; eexists.
  split; [apply (predict_stock_trend_runs lstsq df N y last); assumption|].
  unfold forecast_frame. cbn [index columns lookup].
  rewrite steps_length.
  assert (Hnth : forall i d, nth_error (steps last N) i = Some d ->
            (i < Z.to_nat N)%nat /\ d = shift last (Z.of_nat i + 1)).
  { intros i d Hd.
    assert (Hi : (i < Z.to_nat N)%nat).
    { rewrite <- (steps_length last N). apply nth_error_Some. congruence. }
    split; [exact Hi|]. rewrite (steps_nth last N i Hi) in Hd.
    now injection Hd. }
  split; [lia|]. split; [intros i Hi; now apply steps_nth|]. split.
  { intros i d d' Hd Hd'.
    destruct (Hnth _ _ Hd) as (_ & ->). destruct (Hnth _ _ Hd') as (_ & ->).
    rewrite shift_shift. f_equal. lia. }
  split; [reflexivity|]. split.
  { unfold predict. now rewrite !length_map, steps_length. }
  intros Hsteady i d Hd. destruct (Hnth _ _ Hd) as (Hi & ->).
  rewrite date_of_shift by (apply Hsteady; lia). lia.
Qed.

Lemma forecast_dates_consecutive_witness :
  exists out preds,
    predict_stock_trend lstsq_mean week 7 = Ret out /\
    Z.of_nat (List.length (index out)) = 7 /\
    (forall i, (i < List.length (index out))%nat ->
       nth_error (index out) i
       = Some (shift (day friday) (Z.of_nat i + 1))) /\
    (forall i d d', nth_error (index out) i = Some d ->
       nth_error (index out) (S i) = Some d' -> d' = shift d 1) /\
    lookup "Predicted_Close" (columns out) = Some preds /\
    List.length preds = List.length (index out) /\
    (steady_offset (day friday) 7 ->
     forall i d, nth_error (index out) i = Some d ->
       date_of d = date_of (day friday) + Z.of_nat i + 1).
Proof.
  apply (forecast_dates_consecutive lstsq_mean week 7 (closes [1; 2; 3; 4; 5])
           (day friday));
    [reflexivity | reflexivity | reflexivity | lia | reflexivity |].
  unfold within_range. vm_compute. split; discriminate.
Defined.

(** C3, as stated, fails: after a Friday the first forecast date is a
    Saturday. *)
Lemma forecast_date_on_saturday :
  exists out,
    predict_stock_trend lstsq_mean week 7 = Ret out /\
    nth_error (index out) 0 = Some (day 739192) /\
    ts_dayofweek (day 739192) = 5.
Proof.
  eexists. split; [vm_compute; reflexivity|].
  split; vm_compute; reflexivity.
Qed.

(** C3, amended.  The timestamps attached to the forecast points are the
    successive 24-hour steps from the last historical timestamp, weekends
    included.  When the UTC offset of the index is the same at each of
    them as at the last historical timestamp (no zone, or no change of
    time in between), timestamp number [i] falls on weekday (weekday of
    the last historical date + i + 1) mod 7, and a forecast over 6 days or
    more always holds a Saturday or a Sunday. *)
Theorem forecast_dates_weekdays
  (lstsq : list (list Q) -> list Q -> linear_model)
  (df out : DataFrame) (N : Z) (last : Timestamp) :
  predict_stock_trend lstsq df N = Ret out ->
  has_column "Close" df = true ->
  last_item (index df) = Ret last ->
  (forall i d, nth_error (index out) i = Some d ->
     d = shift last (Z.of_nat i + 1)) /\
  (steady_offset last N ->
   (forall i d, nth_error (index out) i = Some d ->
      ts_dayofweek d = (ts_dayofweek last + Z.of_nat i + 1) mod 7) /\
   (6 <= N ->
    exists d, In d (index out) /\ is_weekend (date_of d) = true)).
Proof.
  intros Hrun Hclose Hlast.
  rewrite (predict_stock_trend_index lstsq df out N last Hrun Hclose Hlast).
  assert (Hnth : forall i d, nth_error (steps last N) i = Some d ->
            (i < Z.to_nat N)%nat /\ d = shift last (Z.of_nat i + 1)).
  { intros i d Hd.
    assert (Hi : (i < Z.to_nat N)%nat).
    { rewrite <- (steps_length last N). apply nth_error_Some. congruence. }
    split; [exact Hi|]. rewrite (steps_nth last N i Hi) in Hd.
    now injection Hd. }
  split; [intros i d Hd; now destruct (Hnth _ _ Hd)|].
  intros Hsteady. split.
  - intros i d Hd. destruct (Hnth _ _ Hd) as (Hi & ->).
    unfold ts_dayofweek.
    rewrite date_of_shift by (apply Hsteady; lia).
    rewrite dayofweek_add.
    apply (f_equal (fun x => x mod 7)). lia.
  - intros HN.
    set (r := dayofweek (date_of last + 1)).
    assert (Hr : 0 <= r < 7) by (apply Z.mod_pos_bound; lia).
    set (k := if r <=? 5 then 5 - r else 0).
    assert (Hk : 0 <= k < N).
    { unfold k. destruct (Z.leb_spec r 5); lia. }
    exists (shift last (Z.of_nat (Z.to_nat k) + 1)). split.
    + apply (nth_error_In _ (Z.to_nat k)).
      apply steps_nth. lia.
    + unfold is_weekend. apply Z.leb_le.
      rewrite date_of_shift by (apply Hsteady; lia).
      rewrite Z2Nat.id by lia.
      replace (date_of last + (k + 1)) with (date_of last + 1 + k) by lia.
      rewrite dayofweek_add. fold r.
      unfold k. destruct (Z.leb_spec r 5).
      * replace (r + (5 - r)) with 5 by lia. cbn. lia.
      * replace (r + 0) with 6 by lia. cbn. lia.
Qed.

Lemma forecast_dates_weekdays_witness :
  let out := forecast_frame (fitted lstsq_mean week (closes [1; 2; 3; 4; 5]))
               (steps (day friday) 7) in
  (forall i d, nth_error (index out) i = Some d ->
     d = shift (day friday) (Z.of_nat i + 1)) /\
  (steady_offset (day friday) 7 ->
   (forall i d, nth_error (index out) i = Some d ->
      ts_dayofweek d = (ts_dayofweek (day friday) + Z.of_nat i + 1) mod 7) /\
   (6 <= 7 ->
    exists d, In d (index out) /\ is_weekend (date_of d) = true)).
Proof.
  cbn zeta.
  apply (forecast_dates_weekdays lstsq_mean week _ 7 (day friday)).
  - vm_compute. reflexivity.
  - reflexivity.
  - reflexivity.
Defined.

(** C7.  For every horizon, an empty history, or one without a Close
    column, gives the empty frame, and no exception. *)
Theorem forecast_without_history
  (lstsq : list (list Q) -> list Q -> linear_model)
  (df : DataFrame) (N : Z) :
  is_empty df = true \/ has_column "Close" df = false ->
  predict_stock_trend lstsq df N = Ret empty_frame.
Proof.
  unfold predict_stock_trend.
  intros [-> | ->]; [reflexivity|].
  now rewrite orb_true_r.
Qed.

Lemma forecast_without_history_witness :
  predict_stock_trend lstsq_mean empty_frame 7 = Ret empty_frame /\
  predict_stock_trend lstsq_mean week_without_close (-3) = Ret empty_frame.
Proof.
  split.
  - apply (forecast_without_history lstsq_mean empty_frame 7).
    left. reflexivity.
  - apply (forecast_without_history lstsq_mean week_without_close (-3)).
    right. reflexivity.
Defined.

End ForecastFacts.

(* ===================================================================== *)
(** ** Properties of the moving averages *)
(* ===================================================================== *)

Module StockFacts.
Import Calendar Frame Stock Fixtures.

Lemma observed_length (l : list cell) :
  (List.length (observed l) <= List.length l)%nat.
Proof. induction l as [|[q|] l IH]; cbn; lia. Qed.

Lemma observed_all (l : list cell) :
  List.length (observed l) = List.length l -> l = map Some (observed l).
Proof.
  induction l as [|[q|] l IH]; cbn; intros H.
  - reflexivity.
  - f_equal. apply IH. lia.
  - pose proof (observed_length l). lia.
Qed.

Lemma observed_map_Some (qs : list Q) : observed (map Some qs) = qs.
Proof. induction qs as [|q qs IH]; cbn; congruence. Qed.

Lemma window_length (w : nat) (xs : list cell) (i : nat) :
  (List.length (window w xs i) <= Nat.min w (S i))%nat.
Proof. unfold window. rewrite length_firstn. lia. Qed.

Lemma window_full (w : nat) (xs : list cell) (i : nat) :
  (w <= S i)%nat -> window w xs i = firstn w (skipn (S i - w) xs).
Proof. intros H. unfold window. f_equal. lia. Qed.

Lemma rolling_mean_at_early (w : nat) (xs : list cell) (i : nat) :
  (S i < w)%nat -> rolling_mean_at w xs i = None.
Proof.
  intros H. unfold rolling_mean_at.
  pose proof (observed_length (window w xs i)).
  pose proof (window_length w xs i).
  destruct (Nat.leb_spec w (List.length (observed (window w xs i))));
    [lia | reflexivity].
Qed.

Lemma rolling_mean_at_defined (w : nat) (xs : list cell) (i : nat) (m : Q) :
  rolling_mean_at w xs i = Some m ->
  (w <= S i)%nat /\
  exists qs, List.length qs = w /\
             firstn w (skipn (S i - w) xs) = map Some qs /\
             m = mean qs.
Proof.
  unfold rolling_mean_at.
  pose proof (observed_length (window w xs i)) as Ho.
  pose proof (window_length w xs i) as Hw.
  destruct (Nat.leb_spec w (List.length (observed (window w xs i))));
    [|discriminate].
  intros E. injection E as <-.
  assert (Hi : (w <= S i)%nat) by lia.
  split; [exact Hi|].
  exists (observed (window w xs i)).
  split; [lia|]. split; [|reflexivity].
  rewrite <- (window_full w xs i Hi).
  apply observed_all. lia.
Qed.

Lemma rolling_mean_at_full (w : nat) (xs : list cell) (i : nat)
  (qs : list Q) :
  (w <= S i)%nat -> List.length qs = w ->
  firstn w (skipn (S i - w) xs) = map Some qs ->
  rolling_mean_at w xs i = Some (mean qs).
Proof.
  intros Hi Hlen Hwin. unfold rolling_mean_at.
  rewrite (window_full w xs i Hi), Hwin, observed_map_Some, Hlen.
  now rewrite Nat.leb_refl.
Qed.

Lemma rolling_mean_nth (w : nat) (xs : list cell) (i : nat) :
  (i < List.length xs)%nat ->
  nth_error (rolling_mean w xs) i = Some (rolling_mean_at w xs i).
Proof.
  intros H. unfold rolling_mean.
  rewrite nth_error_map, nth_error_seq.
  destruct (Nat.ltb_spec i (List.length xs)); [reflexivity | lia].
Qed.

(** The rolling mean is a trailing mean that counts the row itself. *)
Lemma rolling_mean_trailing (K : nat) (c : list cell) :
  trailing_mean_column K c (rolling_mean K c).
Proof.
  split.
  - unfold rolling_mean. now rewrite length_map, length_seq.
  - intros i Hi. rewrite (rolling_mean_nth K c i Hi). repeat split.
    + intros H. now rewrite rolling_mean_at_early.
    + injection H as H. now apply rolling_mean_at_defined in H.
    + injection H as H. now apply rolling_mean_at_defined in H.
    + intros qs H1 H2 H3. now rewrite (rolling_mean_at_full K c i qs).
Qed.

Lemma lookup_replace_same (name : string) (v : list cell)
  (cols : list (string * list cell)) :
  lookup name cols <> None -> lookup name (replace name v cols) = Some v.
Proof.
  induction cols as [|[k w] cols IH]; cbn; [congruence|].
  destruct (String.eqb k name) eqn:E; cbn; rewrite E; auto.
Qed.

Lemma lookup_replace_other (name name' : string) (v : list cell)
  (cols : list (string * list cell)) :
  name' <> name -> lookup name' (replace name v cols) = lookup name' cols.
Proof.
  intros Hneq.
  induction cols as [|[k w] cols IH]; cbn; [reflexivity|].
  destruct (String.eqb_spec k name) as [->|Hk]; cbn.
  - destruct (String.eqb_spec name name'); [congruence | reflexivity].
  - now rewrite IH.
Qed.

Lemma lookup_app (name : string) (cols cols' : list (string * list cell)) :
  lookup name (cols ++ cols') =
  match lookup name cols with
  | Some v => Some v
  | None => lookup name cols'
  end.
Proof.
  induction cols as [|[k w] cols IH]; cbn; [reflexivity|].
  destruct (String.eqb k name); auto.
Qed.

Lemma lookup_setitem_same (df : DataFrame) (name : string) (v : list cell) :
  lookup name (columns (setitem df name v)) = Some v.
Proof.
  unfold setitem. cbn [columns].
  destruct (lookup name (columns df)) eqn:E.
  - apply lookup_replace_same. congruence.
  - rewrite lookup_app, E. cbn. now rewrite String.eqb_refl.
Qed.

Lemma lookup_setitem_other (df : DataFrame) (name name' : string)
  (v : list cell) :
  name' <> name ->
  lookup name' (columns (setitem df name v)) = lookup name' (columns df).
Proof.
  intros Hneq. unfold setitem. cbn [columns].
  destruct (lookup name (columns df)) eqn:E.
  - now apply lookup_replace_other.
  - rewrite lookup_app. destruct (lookup name' (columns df)); [reflexivity|].
    cbn. destruct (String.eqb_spec name name'); congruence.
Qed.

(** The value of [fetch_stock_data] on a history with closes. *)
Lemma fetch_stock_data_runs
  (history : string -> string -> outcome DataFrame)
  (symbol period : string) (hist : DataFrame) (c : list cell) :
  history symbol period = Ret hist ->
  is_empty hist = false ->
  lookup "Close" (columns hist) = Some c ->
  fetch_stock_data history symbol period =
  Ret (setitem (setitem hist "MA5" (rolling_mean 5 c))
               "MA20" (rolling_mean 20 c)).
Proof.
  intros Hh Hne Hc. unfold fetch_stock_data, getitem.
  rewrite Hh. cbn [obind]. rewrite Hne, Hc. cbn [obind].
  rewrite lookup_setitem_other, Hc by discriminate.
  reflexivity.
Qed.

(** C5, as stated, fails under the reading in which a row's own close is
    not one of its prior points: on five closes MA5 has a value at the
    fifth row, which has only four rows before it. *)
Lemma ma5_defined_at_fifth_row :
  exists out ma5,
    fetch_stock_data yahoo_week "1810.HK" "1y" = Ret out /\
    lookup "MA5" (columns out) = Some ma5 /\
    nth_error ma5 4 = Some (Some (15 # 5)%Q) /\
    ~ defined_after_prior 5 ma5.
Proof.
  eexists. eexists. split; [reflexivity|]. split; [reflexivity|].
  split; [reflexivity|].
  intros H. specialize (H 4%nat (15 # 5)%Q eq_refl). lia.
Qed.

(** C5, amended.  In the price series [fetch_stock_data] returns, for K
    in {5, 20} the field MAK is missing at every row until K rows exist up
    to and including that row (that is, at the first K - 1 rows), and a
    value it has is the mean of the trailing window of the K most recent
    closes, the row's own close included. *)
Theorem moving_averages_trailing
  (history : string -> string -> outcome DataFrame)
  (symbol period : string) (hist : DataFrame) (c : list cell) :
  history symbol period = Ret hist ->
  is_empty hist = false ->
  lookup "Close" (columns hist) = Some c ->
  exists out ma5 ma20,
    fetch_stock_data history symbol period = Ret out /\
    index out = index hist /\
    lookup "Close" (columns out) = Some c /\
    lookup "MA5" (columns out) = Some ma5 /\
    lookup "MA20" (columns out) = Some ma20 /\
    trailing_mean_column 5 c ma5 /\
    trailing_mean_column 20 c ma20.
Proof.
  intros Hh Hne Hc.
  exists (setitem (setitem hist "MA5" (rolling_mean 5 c))
                  "MA20" (rolling_mean 20 c)),
         (rolling_mean 5 c), (rolling_mean 20 c).
  split; [now apply fetch_stock_data_runs|].
  split; [reflexivity|].
  split; [now rewrite !lookup_setitem_other by discriminate|].
  split; [now rewrite lookup_setitem_other, lookup_setitem_same
            by discriminate|].
  split; [apply lookup_setitem_same|].
  split; apply rolling_mean_trailing.
Qed.

Lemma moving_averages_trailing_witness :
  exists out ma5 ma20,
    fetch_stock_data yahoo_week "1810.HK" "1y" = Ret out /\
    index out = index week /\
    lookup "Close" (columns out) = Some (closes [1; 2; 3; 4; 5]) /\
    lookup "MA5" (columns out) = Some ma5 /\
    lookup "MA20" (columns out) = Some ma20 /\
    trailing_mean_column 5 (closes [1; 2; 3; 4; 5]) ma5 /\
    trailing_mean_column 20 (closes [1; 2; 3; 4; 5]) ma20.
Proof.
  apply (moving_averages_trailing yahoo_week "1810.HK" "1y" week
           (closes [1; 2; 3; 4; 5])); reflexivity.
Defined.

End StockFacts.

(* ===================================================================== *)
(** ** More on text cleaning and the scorer's calls *)
(* ===================================================================== *)

Module ScorerFacts.
Import Text Sentiment Batch Fixtures Observe SentimentFacts.

Lemma until_gt_none_tag_body (s : string) :
  until_gt s = None -> tag_body s = None.
Proof.
  destruct s as [|c r]; cbn; [reflexivity|].
  destruct (Ascii.eqb c gt_sign); [discriminate | auto].
Qed.

Lemma option_map_S_none (o : option nat) : option_map S o = None -> o = None.
Proof. destruct o; [discriminate | reflexivity]. Qed.

(** Without a [">"] nothing matches. *)
Lemma strip_tags_no_gt (s : string) : until_gt s = None -> strip_tags s = s.
Proof.
  unfold strip_tags.
  induction s as [|c r IH]; cbn [until_gt sub_tags]; [reflexivity|].
  destruct (Ascii.eqb c gt_sign); [discriminate|].
  intros H. apply option_map_S_none in H.
  rewrite (until_gt_none_tag_body r H), (IH H).
  destruct (Ascii.eqb c lt_sign); reflexivity.
Qed.

Lemma tag_body_strip_tags (s : string) :
  tag_body s = None -> tag_body (strip_tags s) = None.
Proof.
  destruct s as [|c r]; [reflexivity|].
  cbn [tag_body]. destruct (Ascii.eqb c gt_sign) eqn:E.
  - intros _. apply Ascii.eqb_eq in E. subst c.
    unfold strip_tags. cbn [sub_tags].
    change (Ascii.eqb gt_sign lt_sign) with false. cbn iota.
    cbn [tag_body]. now rewrite Ascii.eqb_refl.
  - intros H. apply option_map_S_none in H.
    assert (Hc : until_gt (String c r) = None).
    { cbn [until_gt]. now rewrite E, H. }
    rewrite (strip_tags_no_gt _ Hc). cbn [tag_body]. now rewrite E, H.
Qed.

Lemma strip_tags_sub_tags (s : string) :
  forall k, strip_tags (sub_tags k s) = sub_tags k s.
Proof.
  induction s as [|c r IH]; intros k; [destruct k; reflexivity|].
  destruct k as [|k]; cbn [sub_tags]; [|apply IH].
  destruct (Ascii.eqb c lt_sign) eqn:E.
  - destruct (tag_body r) as [n|] eqn:T; [apply IH|].
    unfold strip_tags at 1. cbn [sub_tags]. rewrite E.
    change (sub_tags 0 r) with (strip_tags r).
    rewrite (tag_body_strip_tags r T).
    fold (strip_tags (strip_tags r)). unfold strip_tags at 2.
    now rewrite IH.
  - unfold strip_tags at 1. cbn [sub_tags]. rewrite E.
    fold (strip_tags (sub_tags 0 r)). now rewrite IH.
Qed.

Lemma strip_tags_twice (s : string) :
  strip_tags (strip_tags s) = strip_tags s.
Proof. apply (strip_tags_sub_tags s 0). Qed.

(** X1.  Cleaning is idempotent: a cleaned text holds no tag any more, so
    cleaning it again changes nothing. *)
Theorem strip_tags_idempotent (s : string) :
  strip_tags (strip_tags s) = strip_tags s.
Proof. apply (strip_tags_sub_tags s 0). Qed.

Lemma length_sub_tags (s : string) :
  forall k, (String.length (sub_tags k s) <= String.length s)%nat.
Proof.
  induction s as [|c r IH]; intros k; cbn [sub_tags String.length]; [lia|].
  destruct k as [|k]; [|specialize (IH k); lia].
  destruct (Ascii.eqb c lt_sign).
  - destruct (tag_body r) as [n|].
    + specialize (IH n). lia.
    + cbn [String.length]. specialize (IH 0%nat). lia.
  - cbn [String.length]. specialize (IH 0%nat). lia.
Qed.

(** X2.  Cleaning only removes characters, and a text without ["<"] is
    returned as it is. *)
Theorem strip_tags_shrinks (s : string) :
  (String.length (strip_tags s) <= String.length s)%nat /\
  (has_char lt_sign s = false -> strip_tags s = s).
Proof.
  split; [apply length_sub_tags|].
  unfold strip_tags, has_char.
  induction s as [|c r IH]; cbn [sub_tags list_ascii_of_string existsb];
    [reflexivity|].
  rewrite (Ascii.eqb_sym lt_sign c).
  destruct (Ascii.eqb c lt_sign); cbn [orb]; [discriminate|].
  intros H. now rewrite (IH H).
Qed.

Ltac pick_shape := repeat first [left; reflexivity | right].

Lemma analyze_sentiment_calls (env : Env) (text : string) (detailed : bool) :
  exists mid,
    trace (analyze_sentiment env text detailed)
    = EvDetect (strip_tags text) :: mid /\
    In mid (call_shapes (strip_tags text)).
Proof.
  unfold analyze_sentiment, local_tier, remote_tier, call_shapes, trace.
  cbn zeta. set (t := strip_tags text).
  run_cases; eexists; (split; [reflexivity | cbn; pick_shape]).
Qed.

(** X3.  One scoring calls the language detector first and exactly once,
    then at most one local model, then the remote fallback at most once
    (no retry); a run with [detailed=True] stops after the detector. *)
Theorem analyze_sentiment_call_order (env : Env) (text : string)
  (detailed : bool) :
  exists mid,
    trace (analyze_sentiment env text detailed)
    = EvDetect (strip_tags text) :: mid /\
    In mid (call_shapes (strip_tags text)) /\
    (detailed = true -> mid = []).
Proof.
  destruct (analyze_sentiment_calls env text detailed) as (mid & E & Hin).
  exists mid. split; [exact E|]. split; [exact Hin|].
  intros ->. unfold analyze_sentiment in E. cbn zeta in E.
  destruct (detect env (strip_tags text)); cbn in E;
    injection E as <-; reflexivity.
Qed.

Lemma sleep_is_no_scoring_call (env : Env) (text : string) (ms : Z) :
  In (EvSleep ms) (trace (analyze_sentiment env text false)) ->
  None = Some (strip_tags text).
Proof.
  destruct (analyze_sentiment_calls env text false) as (mid & -> & Hin).
  intros [E | Hev]; [discriminate E|].
  unfold call_shapes in Hin. cbn [In] in Hin.
  repeat (destruct Hin as [<- | Hin];
          [cbn [In] in Hev; intuition discriminate|]).
  contradiction.
Qed.

(** X4.  Every collaborator is handed the cleaned text: no call of a
    scoring carries the markup of the input. *)
Theorem collaborators_see_clean_text (env : Env) (text : string)
  (detailed : bool) (ev : event) :
  In ev (trace (analyze_sentiment env text detailed)) ->
  event_text ev = Some (strip_tags text).
Proof.
  destruct (analyze_sentiment_calls env text detailed) as (mid & -> & Hin).
  intros [<- | Hev]; [reflexivity|].
  unfold call_shapes in Hin. cbn [In] in Hin.
  repeat (destruct Hin as [<- | Hin];
          [cbn [In] in Hev; intuition (subst; reflexivity)|]).
  contradiction.
Qed.

Lemma collaborators_see_clean_text_witness :
  event_text (EvRemote "profits fall") = Some (strip_tags "<i>profits</i> fall").
Proof.
  apply (collaborators_see_clean_text env_remote "<i>profits</i> fall" false).
  cbn. right. left. reflexivity.
Defined.

Lemma local_tier_is_local_verdict (env : Env) (lang t : string) :
  result (try_except (local_tier env lang t) (ret None))
  = Ret (local_verdict env lang t).
Proof.
  unfold local_tier, local_verdict.
  run_cases; try reflexivity; cbn in *; congruence.
Qed.

Lemma remote_tier_is_remote_verdict (env : Env) (t : string) :
  result (try_except (remote_tier env false t) (ret None))
  = match chat env t with
    | Ret (Some s :: _) => Ret (Some (keyword_score (upper (strip s))))
    | _ => Ret None
    end.
Proof.
  unfold remote_tier, reply_text.
  run_cases; try reflexivity; cbn in *; congruence.
Qed.

(** The score with [detailed=False], tier by tier. *)
Lemma scoring_table (env : Env) (text : string) :
  result (analyze_sentiment env text false)
  = Ret (match local_verdict env (detected_lang env (strip_tags text))
                 (strip_tags text) with
         | Some v => v
         | None => remote_verdict env (strip_tags text)
         end).
Proof.
  rewrite analyze_sentiment_unfold. cbn zeta. cbn [negb].
  rewrite local_tier_is_local_verdict.
  destruct (local_verdict _ _) as [v|]; [reflexivity|].
  rewrite remote_tier_is_remote_verdict. unfold remote_verdict.
  destruct (chat env (strip_tags text)) as [[|[s|] cs]|e]; reflexivity.
Qed.

Lemma local_verdict_nonzero (env : Env) (lang t : string) (v : Z) :
  local_verdict env lang t = Some v -> v <> 0.
Proof.
  unfold local_verdict.
  repeat (break_match; try discriminate);
    intros E; injection E as <-; discriminate.
Qed.

Lemma local_verdict_unloaded (env : Env) (lang t : string) :
  sentiment_en env = None -> sentiment_zh env = None ->
  local_verdict env lang t = None.
Proof.
  unfold local_verdict. intros -> ->.
  destruct (String.eqb lang "en"), (String.eqb lang "zh"); reflexivity.
Qed.

(** C1, amended.  For every configuration of tiers, [analyze_sentiment]
    applied to the empty string returns 0 if and only if [detailed=True]
    or no tier gives a verdict other than neutral: the local tier has no
    verdict on the empty text for the language the scorer goes on with
    ("en" when detection fails), and the remote verdict is 0 (the remote
    call fails, or its reply holds neither POSITIVE nor NEGATIVE).  In
    particular it returns 0 when no local classifier is loaded and the
    remote fallback is unreachable. *)
Theorem empty_text_score (env : Env) (detailed : bool) :
  (result (analyze_sentiment env "" detailed) = Ret 0 <->
   detailed = true \/
   (local_verdict env (detected_lang env "") "" = None /\
    remote_verdict env "" = 0)) /\
  (sentiment_en env = None -> sentiment_zh env = None ->
   (exists e, chat env "" = Raise e) ->
   result (analyze_sentiment env "" detailed) = Ret 0).
Proof.
  assert (Hiff : result (analyze_sentiment env "" detailed) = Ret 0 <->
            detailed = true \/
            (local_verdict env (detected_lang env "") "" = None /\
             remote_verdict env "" = 0)).
  { destruct detailed.
    - split; [now left|]. intros _.
      rewrite analyze_sentiment_unfold. reflexivity.
    - rewrite scoring_table. change (strip_tags "") with "".
      destruct (local_verdict env (detected_lang env "") "") as [v|] eqn:E.
      + apply local_verdict_nonzero in E. split.
        * intros H. injection H as H. contradiction.
        * intros [H | [H _]]; discriminate H.
      + split.
        * intros H. injection H as H. right. now split.
        * intros [H | [_ H]]; [discriminate H | now rewrite H]. }
  split; [exact Hiff|].
  intros Hen Hzh (e & Hchat). apply Hiff. right. split.
  - now apply local_verdict_unloaded.
  - unfold remote_verdict. now rewrite Hchat.
Qed.

(** X5.  The score as a decision table: with [detailed=False] it is the
    local verdict when the local tier has one, and otherwise the remote
    verdict (the keyword score of the reply, 0 when the call fails); a
    failure of the detector only sets the language to "en". *)
Theorem analyze_sentiment_decision (env : Env) (text : string) :
  result (analyze_sentiment env text false)
  = Ret (match local_verdict env (detected_lang env (strip_tags text))
                 (strip_tags text) with
         | Some v => v
         | None => remote_verdict env (strip_tags text)
         end).
Proof.
  rewrite analyze_sentiment_unfold. cbn zeta. cbn [negb].
  rewrite local_tier_is_local_verdict.
  destruct (local_verdict _ _) as [v|]; [reflexivity|].
  rewrite remote_tier_is_remote_verdict. unfold remote_verdict.
  destruct (chat env (strip_tags text)) as [[|[s|] cs]|e]; reflexivity.
Qed.

(** X6.  When the English model is loaded but its inference raises, the
    scorer goes straight to the remote fallback: the Chinese model is not
    tried, the remote API is called once, and its verdict is the score. *)
Theorem failed_inference_falls_back (env : Env) (text : string)
  (model : classifier) (e : exn) :
  detected_lang env (strip_tags text) = "en" ->
  sentiment_en env = Some model ->
  model (strip_tags text) = Raise e ->
  analyze_sentiment env text false
  = ([EvDetect (strip_tags text); EvLocalEn (strip_tags text);
      EvRemote (strip_tags text)],
     Ret (remote_verdict env (strip_tags text))).
Proof.
  unfold detected_lang, analyze_sentiment, local_tier, remote_tier,
    remote_verdict.
  cbn zeta. set (t := strip_tags text). intros Hlang Hen Hm.
  destruct (detect env t) as [l|e']; cbn; rewrite ?Hlang; cbn;
    rewrite Hen; cbn; rewrite Hm; cbn;
    destruct (chat env t) as [[|[s|] cs]|e'']; reflexivity.
Qed.

Lemma failed_inference_falls_back_witness :
  let env := {| detect := fun _ => Ret "en";
                sentiment_en := Some (fun _ => Raise ExternalError);
                sentiment_zh := Some (says "positive");
                chat := fun _ => Ret [Some "positive"];
                now := fun _ => 0 |} in
  analyze_sentiment env "up" false
  = ([EvDetect "up"; EvLocalEn "up"; EvRemote "up"], Ret 1).
Proof.
  cbn zeta.
  apply (failed_inference_falls_back
           {| detect := fun _ => Ret "en";
              sentiment_en := Some (fun _ => Raise ExternalError);
              sentiment_zh := Some (says "positive");
              chat := fun _ => Ret [Some "positive"];
              now := fun _ => 0 |}
           "up" (fun _ => Raise ExternalError) ExternalError);
    reflexivity.
Defined.

(** X7.  When the local tier has a verdict the remote API is not called:
    the only calls are the detector and that one model. *)
Theorem local_verdict_spares_remote (env : Env) (text : string) (v : Z) :
  local_verdict env (detected_lang env (strip_tags text)) (strip_tags text)
  = Some v ->
  Observe.count is_remote (trace (analyze_sentiment env text false)) = 0%nat /\
  Observe.count is_local (trace (analyze_sentiment env text false)) = 1%nat /\
  result (analyze_sentiment env text false) = Ret v.
Proof.
  unfold detected_lang, local_verdict, analyze_sentiment, local_tier,
    remote_tier, trace, result, Observe.count.
  cbn zeta. set (t := strip_tags text).
  destruct (detect env t) as [l|e']; cbn;
    repeat (break_match; cbn; try discriminate);
    intros H; injection H as <-; repeat split; reflexivity.
Qed.

Lemma local_verdict_spares_remote_witness :
  Observe.count is_remote (trace (analyze_sentiment env_local "up" false)) = 0%nat /\
  Observe.count is_local (trace (analyze_sentiment env_local "up" false)) = 1%nat /\
  result (analyze_sentiment env_local "up" false) = Ret 1.
Proof.
  apply (local_verdict_spares_remote env_local "up" 1). reflexivity.
Defined.

End ScorerFacts.

(* ===================================================================== *)
(** ** More on batch scoring *)
(* ===================================================================== *)

Module BatchCalls.
Import Text Sentiment Batch Fixtures Observe SentimentFacts BatchFacts
  ScorerFacts.

Lemma trace_bind {A B} (m : M A) (f : A -> M B) :
  trace (bind m f) =
  trace m ++ match result m with
             | Ret a => trace (f a)
             | Raise _ => []
             end.
Proof.
  destruct m as [t [a|e]]; cbn; [|now rewrite app_nil_r].
  destruct (f a); reflexivity.
Qed.

Lemma count_app (p : event -> bool) (a b : list event) :
  Observe.count p (a ++ b) = (Observe.count p a + Observe.count p b)%nat.
Proof. unfold Observe.count. now rewrite filter_app, length_app. Qed.

(** One scoring never sleeps and calls the remote API at most once. *)
Lemma analyze_sentiment_counts (env : Env) (text : string) (detailed : bool) :
  Observe.count is_sleep (trace (analyze_sentiment env text detailed)) = 0%nat /\
  (Observe.count is_remote (trace (analyze_sentiment env text detailed)) <= 1)%nat.
Proof.
  destruct (analyze_sentiment_calls env text detailed) as (mid & -> & Hin).
  unfold call_shapes in Hin. cbn [In] in Hin.
  repeat (destruct Hin as [<- | Hin]; [cbn; lia|]).
  contradiction.
Qed.

Lemma loop_body_trace (env : Env) (i : nat) (row : headline)
  (acc : list SentimentResult) :
  trace (loop_body env i row acc) = row_trace env row.
Proof.
  unfold loop_body, row_trace, getitem_title, analyze_sentiment_value.
  destruct (title row) as [[s|]|]; cbn; try reflexivity.
  destruct (analyze_sentiment_score env s false) as (v & Hv & _).
  unfold result, trace in *.
  destruct (analyze_sentiment env s false) as [tr o]. cbn in Hv. subst o.
  reflexivity.
Qed.

Lemma iterrows_trace (env : Env) (rows : list headline) :
  forall (i : nat) (acc : list SentimentResult),
    trace (iterrows env i rows acc) = flat_map (row_trace env) rows.
Proof.
  induction rows as [|row rest IH]; intros i acc; cbn [iterrows flat_map];
    [reflexivity|].
  rewrite trace_bind, loop_body_trace, loop_body_result, IH. reflexivity.
Qed.

Lemma row_sleeps (env : Env) (i : nat) (row : headline) :
  Observe.count is_sleep (row_trace env row)
  = List.length (match headline_result env i row with
                 | Some r => [r]
                 | None => []
                 end).
Proof.
  unfold row_trace, headline_result.
  destruct (title row) as [[s|]|]; try reflexivity.
  destruct (analyze_sentiment_score env s false) as (v & -> & _).
  rewrite count_app.
  destruct (analyze_sentiment_counts env s false) as [-> _]. reflexivity.
Qed.

Lemma rows_sleeps (env : Env) (rows : list headline) :
  forall i, Observe.count is_sleep (flat_map (row_trace env) rows)
            = List.length (results_from env i rows).
Proof.
  induction rows as [|row rest IH]; intros i; cbn [flat_map results_from];
    [reflexivity|].
  rewrite count_app, (row_sleeps env i row), (IH (S i)).
  destruct (headline_result env i row); reflexivity.
Qed.

Lemma row_remote (env : Env) (row : headline) :
  (Observe.count is_remote (row_trace env row) <= 1)%nat.
Proof.
  unfold row_trace. destruct (title row) as [[s|]|]; cbn; try lia.
  rewrite count_app.
  destruct (analyze_sentiment_counts env s false) as [_ H]. cbn. lia.
Qed.

Lemma rows_remote (env : Env) (rows : list headline) :
  (Observe.count is_remote (flat_map (row_trace env) rows)
   <= List.length rows)%nat.
Proof.
  induction rows as [|row rest IH]; cbn [flat_map List.length]; [cbn; lia|].
  rewrite count_app. pose proof (row_remote env row). lia.
Qed.

(** X8.  A batch pauses once, for 200 ms, after each headline it scores
    and never for a headline it skips: the number of pauses is the number
    of results. *)
Theorem batch_pauses_per_result (env : Env) (df : list headline)
  (max_count : Z) :
  exists results,
    result (batch_sentiment_analysis env df max_count) = Ret results /\
    Observe.count is_sleep (trace (batch_sentiment_analysis env df max_count))
    = List.length results /\
    (forall ms,
       In (EvSleep ms) (trace (batch_sentiment_analysis env df max_count)) ->
       ms = 200).
Proof.
  unfold batch_sentiment_analysis. cbn zeta.
  exists (results_from env 0 (head max_count df)).
  rewrite iterrows_result, iterrows_trace.
  split; [reflexivity|]. split; [apply rows_sleeps|].
  intros ms Hin. apply in_flat_map in Hin. destruct Hin as (row & _ & Hin).
  unfold row_trace in Hin. destruct (title row) as [[s|]|]; try contradiction.
  apply in_app_or in Hin. destruct Hin as [Hin | [E | []]].
  - pose proof (sleep_is_no_scoring_call env s ms Hin) as H.
    discriminate H.
  - now injection E.
Qed.

(** X9.  A batch with limit K calls the remote API at most K times: one
    call at most per headline of the prefix, none for the rest. *)
Theorem batch_remote_budget (env : Env) (df : list headline) (K : nat) :
  (Observe.count is_remote
     (trace (batch_sentiment_analysis env df (Z.of_nat K))) <= K)%nat.
Proof.
  unfold batch_sentiment_analysis. cbn zeta.
  rewrite iterrows_trace, head_of_nat.
  etransitivity; [apply rows_remote|].
  rewrite length_firstn. lia.
Qed.

Lemma results_from_rows (env : Env) (rows : list headline) :
  forall i r, In r (results_from env i rows) ->
    is_score (r_score r) /\ r_label r = label_of (r_score r) /\
    exists s, r_title r = VStr s.
Proof.
  induction rows as [|row rest IH]; intros i r; cbn [results_from];
    [contradiction|].
  destruct (headline_result env i row) as [r0|] eqn:E; [|apply IH].
  intros [<- | Hin]; [|exact (IH _ _ Hin)].
  unfold headline_result in E.
  destruct (title row) as [[s|]|]; try discriminate.
  destruct (analyze_sentiment_score env s false) as (v & Hv & Hs).
  rewrite Hv in E. injection E as <-. cbn. eauto.
Qed.

(** X10.  Every result of a batch has a score in {-1, 0, 1}, a string
    title, and the label that goes with the score: Positive for 1,
    Neutral for 0, Negative for -1. *)
Theorem batch_labels_match_scores (env : Env) (df : list headline)
  (max_count : Z) (results : list SentimentResult) (r : SentimentResult) :
  result (batch_sentiment_analysis env df max_count) = Ret results ->
  In r results ->
  ((r_score r = 1 /\ r_label r = "Positive") \/
   (r_score r = 0 /\ r_label r = "Neutral") \/
   (r_score r = -1 /\ r_label r = "Negative")) /\
  exists s, r_title r = VStr s.
Proof.
  unfold batch_sentiment_analysis. cbn zeta. rewrite iterrows_result.
  intros E Hin. injection E as <-.
  destruct (results_from_rows env _ _ _ Hin) as (Hs & Hl & Ht).
  split; [|exact Ht]. rewrite Hl.
  destruct Hs as [-> | [-> | ->]]; cbn; auto.
Qed.

Lemma batch_labels_match_scores_witness :
  let r := {| r_title := VStr "b"; r_score := -1; r_label := "Negative";
              r_time := 2 |} in
  ((r_score r = 1 /\ r_label r = "Positive") \/
   (r_score r = 0 /\ r_label r = "Neutral") \/
   (r_score r = -1 /\ r_label r = "Negative")) /\
  exists s, r_title r = VStr s.
Proof.
  cbn zeta.
  apply (batch_labels_match_scores env_remote four_headlines 3
           [ {| r_title := VStr "a"; r_score := -1; r_label := "Negative";
                r_time := 0 |};
             {| r_title := VStr "b"; r_score := -1; r_label := "Negative";
                r_time := 2 |} ]).
  - reflexivity.
  - right. left. reflexivity.
Defined.

(** X11.  The limit at its edges: 0 scores nothing and calls nothing; a
    limit of at least the number of headlines scores them all; and a
    negative limit -n does not mean "none" but "all headlines but the
    last n". *)
Theorem batch_limit_edges (env : Env) (df : list headline) :
  batch_sentiment_analysis env df 0 = ([], Ret []) /\
  (forall K, (List.length df <= K)%nat ->
     batch_sentiment_analysis env df (Z.of_nat K)
     = batch_sentiment_analysis env df (Z.of_nat (List.length df))) /\
  (forall n, (1 <= n)%nat ->
     batch_sentiment_analysis env df (- Z.of_nat n)
     = batch_sentiment_analysis env (firstn (List.length df - n) df)
         (Z.of_nat (List.length df))).
Proof.
  unfold batch_sentiment_analysis. cbn zeta. repeat split.
  - intros K HK. now rewrite !head_of_nat, firstn_all, firstn_all2.
  - intros n Hn. rewrite head_of_nat. unfold head.
    destruct (Z.leb_spec 0 (- Z.of_nat n)); [lia|].
    rewrite Z.opp_involutive, Nat2Z.id.
    rewrite firstn_firstn. f_equal. f_equal. lia.
Qed.

End BatchCalls.

(* ===================================================================== *)
(** ** Properties of the news feed *)
(* ===================================================================== *)

Module NewsFacts.
Import Text Sentiment Batch News Fixtures Samples Observe SentimentFacts
  BatchFacts ScorerFacts.

Section WithFeed.

Variable parse : string -> outcome (list entry).
Variable clock : nat -> Z.

(** An entry gives a row exactly when it is well formed, and the row
    carries the cleaned title. *)
Lemma entry_row_cases (i : nat) (e : entry) :
  match entry_row clock i e with
  | Ret row =>
      well_formed e = true /\
      exists s l t, e_title e = Some s /\
        row = {| title := Some (VStr (strip_tags s)); link := Some (VStr l);
                 published := Some t |}
  | Raise _ => well_formed e = false
  end.
Proof.
  unfold entry_row, well_formed.
  destruct (e_published_parsed e) as [[t|]|], (e_title e) as [s|],
           (e_link e) as [l|]; cbn; try reflexivity;
    (split; [reflexivity | eauto]).
Qed.

Lemma collect_acc (feed : list entry) :
  forall i acc, collect clock i feed acc = acc ++ collect clock i feed [].
Proof.
  induction feed as [|e rest IH]; intros i acc; cbn [collect].
  - now rewrite app_nil_r.
  - destruct (entry_row clock i e) as [row|x].
    + rewrite (IH (S i) (acc ++ [row])), (IH (S i) ([] ++ [row])).
      now rewrite <- app_assoc.
    + apply IH.
Qed.

Lemma collect_titles (feed : list entry) :
  forall i,
    map title (collect clock i feed [])
    = map (fun e => option_map (fun s => VStr (strip_tags s)) (e_title e))
          (filter well_formed feed).
Proof.
  induction feed as [|e rest IH]; intros i; cbn [collect filter];
    [reflexivity|].
  pose proof (entry_row_cases i e) as H.
  destruct (entry_row clock i e) as [row|x].
  - destruct H as (-> & s & l & t & Hs & ->).
    rewrite collect_acc, map_app, IH. cbn. now rewrite Hs.
  - rewrite H. apply IH.
Qed.

Lemma collect_rows (feed : list entry) :
  forall i row, In row (collect clock i feed []) ->
    exists s l t,
      row = {| title := Some (VStr (strip_tags s)); link := Some (VStr l);
               published := Some t |}.
Proof.
  induction feed as [|e rest IH]; intros i row; cbn [collect];
    [contradiction|].
  pose proof (entry_row_cases i e) as H.
  destruct (entry_row clock i e) as [row0|x]; [|apply IH].
  destruct H as (_ & s & l & t & _ & ->).
  rewrite collect_acc. intros Hin. apply in_app_or in Hin.
  destruct Hin as [[<- | []] | Hin]; [eauto | exact (IH _ _ Hin)].
Qed.

Lemma fetch_google_news_value (keyword language_code region_code : string)
  (max_articles : Z) :
  fetch_google_news parse clock keyword language_code region_code max_articles
  = Ret (match parse (feed_url keyword language_code region_code) with
         | Ret feed => collect clock 0 (head max_articles feed) []
         | Raise _ => []
         end).
Proof.
  unfold fetch_google_news.
  destruct (parse (feed_url keyword language_code region_code)); reflexivity.
Qed.

End WithFeed.

(** X12.  Fetching news never raises.  With limit K it returns at most K
    rows, those of the well-formed entries among the first K of the feed,
    in feed order, each with its title cleaned of markup; an entry without
    title or link, or whose date did not parse, is skipped; and a feed
    that cannot be read gives no row. *)
Theorem fetch_google_news_rows
  (parse : string -> outcome (list entry)) (clock : nat -> Z)
  (keyword language_code region_code : string) (K : nat) :
  exists rows,
    fetch_google_news parse clock keyword language_code region_code
      (Z.of_nat K) = Ret rows /\
    (List.length rows <= K)%nat /\
    (forall feed,
       parse (feed_url keyword language_code region_code) = Ret feed ->
       map title rows
       = map (fun e => option_map (fun s => VStr (strip_tags s)) (e_title e))
             (filter well_formed (firstn K feed))) /\
    (forall e,
       parse (feed_url keyword language_code region_code) = Raise e ->
       rows = []).
Proof.
  eexists. split; [apply fetch_google_news_value|].
  destruct (parse (feed_url keyword language_code region_code)) as [feed|x].
  - rewrite head_of_nat. split; [|split].
    + rewrite <- (length_map title), collect_titles, length_map.
      etransitivity; [apply filter_length_le|].
      rewrite length_firstn. lia.
    + intros feed' E. injection E as <-. apply collect_titles.
    + intros e E. discriminate E.
  - split; [cbn; lia|]. split; [intros feed E; discriminate E | reflexivity].
Qed.

(** X13.  Every fetched row is complete and clean: it has a string title
    that cleaning would not change any more, a link and a time. *)
Theorem fetched_rows_are_clean
  (parse : string -> outcome (list entry)) (clock : nat -> Z)
  (keyword language_code region_code : string) (max_articles : Z)
  (rows : list headline) (row : headline) :
  fetch_google_news parse clock keyword language_code region_code max_articles
  = Ret rows ->
  In row rows ->
  exists s l t,
    title row = Some (VStr s) /\ strip_tags s = s /\
    link row = Some (VStr l) /\ published row = Some t.
Proof.
  rewrite fetch_google_news_value. intros E Hin. injection E as <-.
  destruct (parse (feed_url keyword language_code region_code)) as [feed|x];
    [|contradiction].
  destruct (collect_rows clock _ _ _ Hin) as (s & l & t & ->).
  exists (strip_tags s), l, t. cbn.
  repeat split. apply strip_tags_twice.
Qed.

Lemma fetched_rows_are_clean_witness :
  exists s l t,
    title {| title := Some (VStr "Xiaomi up");
             link := Some (VStr "https://example.org/a");
             published := Some 1700000000 |} = Some (VStr s) /\
    strip_tags s = s /\
    link {| title := Some (VStr "Xiaomi up");
            link := Some (VStr "https://example.org/a");
            published := Some 1700000000 |} = Some (VStr l) /\
    published {| title := Some (VStr "Xiaomi up");
                 link := Some (VStr "https://example.org/a");
                 published := Some 1700000000 |} = Some t.
Proof.
  apply (fetched_rows_are_clean sample_parse sample_clock "Xiaomi" "en-US"
           "US:en" 50
           [ {| title := Some (VStr "Xiaomi up");
                link := Some (VStr "https://example.org/a");
                published := Some 1700000000 |};
             {| title := Some (VStr "EV sales");
                link := Some (VStr "https://example.org/c");
                published := Some 1700000102 |} ]).
  - reflexivity.
  - left. reflexivity.
Defined.

(** X14.  Fetching and batch scoring compose without loss: scoring the
    fetched rows with limit K gives exactly min(K, number of rows)
    results, none skipped, titled as the rows are. *)
Theorem fetched_rows_all_scored
  (parse : string -> outcome (list entry)) (clock : nat -> Z) (env : Env)
  (keyword language_code region_code : string) (max_articles : Z)
  (rows : list headline) (K : nat) :
  fetch_google_news parse clock keyword language_code region_code max_articles
  = Ret rows ->
  exists results,
    result (batch_sentiment_analysis env rows (Z.of_nat K)) = Ret results /\
    List.length results = Nat.min K (List.length rows) /\
    map (fun r => Some (r_title r)) results = map title (firstn K rows).
Proof.
  rewrite fetch_google_news_value. intros E. injection E as <-.
  set (rows := match parse _ with Ret feed => _ | Raise _ => [] end).
  assert (Hrows : forall row, In row rows ->
            exists s, title row = Some (VStr s)).
  { intros row Hin. subst rows.
    destruct (parse (feed_url keyword language_code region_code));
      [|contradiction].
    destruct (collect_rows clock _ _ _ Hin) as (s & l & t & ->).
    cbn. eauto. }
  exists (results_from env 0 (firstn K rows)).
  unfold batch_sentiment_analysis. cbn zeta.
  rewrite head_of_nat, iterrows_result.
  assert (Ht : forall l, (forall row, In row l ->
                 exists s, title row = Some (VStr s)) ->
               map Some (flat_map scorable_title l) = map title l).
  { induction l as [|row l IH]; intros H; [reflexivity|].
    cbn [flat_map map]. rewrite map_app, IH by (intros; apply H; now right).
    destruct (H row (or_introl eq_refl)) as (s & Hs).
    unfold scorable_title. now rewrite Hs. }
  assert (Hpre : forall row, In row (firstn K rows) ->
            exists s, title row = Some (VStr s)).
  { intros row Hin. apply Hrows. rewrite <- (firstn_skipn K rows).
    apply in_or_app. now left. }
  split; [reflexivity|]. split.
  - rewrite <- (length_map r_title), results_from_titles.
    rewrite <- (length_map Some), (Ht _ Hpre), length_map.
    apply length_firstn.
  - rewrite <- map_map, results_from_titles. apply Ht, Hpre.
Qed.

Lemma fetched_rows_all_scored_witness :
  exists results,
    result (batch_sentiment_analysis env_remote sample_rows (Z.of_nat 5))
    = Ret results /\
    List.length results = Nat.min 5 (List.length sample_rows) /\
    map (fun r => Some (r_title r)) results = map title (firstn 5 sample_rows).
Proof.
  apply (fetched_rows_all_scored sample_parse sample_clock env_remote
           "Xiaomi" "en-US" "US:en" 50 sample_rows 5).
  reflexivity.
Defined.

Lemma replace_char_facts (old new : ascii) (s : string) :
  old <> new ->
  String.length (replace_char old new s) = String.length s /\
  has_char old (replace_char old new s) = false.
Proof.
  intros Hneq. unfold has_char.
  induction s as [|c r [IH1 IH2]]; [split; reflexivity|].
  cbn [replace_char String.length list_ascii_of_string existsb].
  rewrite IH1, IH2. split; [reflexivity|]. rewrite orb_false_r.
  destruct (Ascii.eqb_spec c old) as [->|Hc].
  - apply Ascii.eqb_neq. exact Hneq.
  - apply Ascii.eqb_neq. congruence.
Qed.

(** X15.  The query of the feed URL is the keyword with every space
    turned into "+": it has the keyword's length and holds no space. *)
Theorem search_query_has_no_space (keyword : string) :
  String.length (search_query keyword) = String.length keyword /\
  has_char " "%char (search_query keyword) = false.
Proof. apply replace_char_facts. discriminate. Qed.

End NewsFacts.

(* ===================================================================== *)
(** ** Properties of the dashboard tabs *)
(* ===================================================================== *)

Module DashboardFacts.
Import Text Sentiment Batch Dashboard Fixtures Samples Observe SentimentFacts
  BatchFacts.

Lemma lstrip_space_all :
  Forall (fun w => forall s, lstrip (w ++ s) = lstrip s) unicode_spaces.
Proof.
  unfold unicode_spaces. cbn [map].
  repeat constructor; intros s;
    cbv [bytes map string_of_list_ascii]; reflexivity.
Qed.

Lemma lstrip_space (w s : string) :
  In w unicode_spaces -> lstrip (w ++ s) = lstrip s.
Proof.
  intros H. exact (proj1 (Forall_forall _ _) lstrip_space_all w H s).
Qed.

Lemma lstrip_spaces (pieces : list string) :
  Forall (fun w => In w unicode_spaces) pieces -> lstrip (join pieces) = "".
Proof.
  induction 1 as [|w pieces Hw _ IH]; [reflexivity|].
  unfold join in *. cbn [fold_right]. now rewrite (lstrip_space w _ Hw).
Qed.

(** X16.  "Analyze Sentiment" on an input of whitespace only (any
    sequence of the 29 code points for which [str.isspace] holds, among
    them the no-break space U+00A0 and the ideographic space U+3000) shows
    the "please input some text" warning and scores nothing: no
    collaborator, not even the language detector, is called. *)
Theorem blank_input_is_not_scored (env : Env) (pieces : list string) :
  Forall (fun w => In w unicode_spaces) pieces ->
  sentiment_tab env (join pieces) = ([], Ret [PleaseInputText]).
Proof.
  intros H. unfold sentiment_tab, strip.
  now rewrite (lstrip_spaces pieces H).
Qed.

Lemma blank_input_is_not_scored_witness :
  sentiment_tab env_local
    (join [bytes [32]%nat; bytes [194; 160]%nat; bytes [227; 128; 128]%nat;
           bytes [10]%nat])
  = ([], Ret [PleaseInputText]).
Proof.
  apply (blank_input_is_not_scored env_local
           [bytes [32]%nat; bytes [194; 160]%nat; bytes [227; 128; 128]%nat;
            bytes [10]%nat]).
  repeat (apply Forall_cons;
          [unfold unicode_spaces; cbn [map In];
           repeat first [left; reflexivity | right] |]).
  apply Forall_nil.
Defined.

(** X17.  "Analyze Sentiment" never fails: whatever the collaborators do,
    it shows exactly one message, the one that goes with the score of the
    input when the input is not blank. *)
Theorem sentiment_tab_one_message (env : Env) (input_text : string) :
  exists n,
    result (sentiment_tab env input_text) = Ret [n] /\
    (strip input_text <> "" ->
       (n = SentimentPositive /\
        result (analyze_sentiment env input_text false) = Ret 1) \/
       (n = SentimentNegative /\
        result (analyze_sentiment env input_text false) = Ret (-1)) \/
       (n = SentimentNeutral /\
        result (analyze_sentiment env input_text false) = Ret 0)).
Proof.
  unfold sentiment_tab.
  destruct (String.eqb_spec (strip input_text) "") as [E|E].
  - exists PleaseInputText. split; [reflexivity | congruence].
  - destruct (analyze_sentiment_score env input_text false) as (v & Hv & Hs).
    rewrite result_bind, Hv.
    destruct Hs as [-> | [-> | ->]]; cbn; eexists; (split; [reflexivity|]);
      intros _; auto.
Qed.

(** X18.  "Run Batch Analysis" with the selected news source empty shows
    the "no news" warning and then stops with a [NameError]: [target_df]
    was never bound.  Nothing is scored, called or stored.  With a
    non-empty source the run always finishes. *)
Theorem batch_tab_unbound_target (env : Env)
  (current_news_df historical_news_df : list headline)
  (source_choice : string) (article_count : Z) :
  let run := batch_tab env current_news_df historical_news_df source_choice
               article_count in
  let current := String.eqb source_choice "Current News" in
  let selected := if current then current_news_df else historical_news_df in
  (selected = [] ->
     run = {| notices := [if current then NoCurrentNews else NoHistoricalNews];
              calls := []; stored := None; ended := NameError |}) /\
  (selected <> [] -> ended run = Finished).
Proof.
  cbn zeta. unfold batch_tab, choose_target.
  destruct (String.eqb source_choice "Current News").
  - destruct current_news_df as [|row rows]; split;
      try reflexivity; try congruence; intros _.
    destruct (batch_sentiment_analysis env (row :: rows) article_count)
      as [t o] eqn:E.
    assert (H : result (batch_sentiment_analysis env (row :: rows)
                          article_count) = o) by now rewrite E.
    unfold batch_sentiment_analysis in H. cbn zeta in H.
    rewrite iterrows_result in H. subst o.
    destruct (results_from env 0 (head article_count (row :: rows)));
      reflexivity.
  - destruct historical_news_df as [|row rows]; split;
      try reflexivity; try congruence; intros _.
    destruct (batch_sentiment_analysis env (row :: rows) article_count)
      as [t o] eqn:E.
    assert (H : result (batch_sentiment_analysis env (row :: rows)
                          article_count) = o) by now rewrite E.
    unfold batch_sentiment_analysis in H. cbn zeta in H.
    rewrite iterrows_result in H. subst o.
    destruct (results_from env 0 (head article_count (row :: rows)));
      reflexivity.
Qed.

End DashboardFacts.

(* ===================================================================== *)
(** ** More on the price history *)
(* ===================================================================== *)

Module HistoryFacts.
Import Calendar Frame Stock Fixtures Samples StockFacts.

Lemma observed_gap (l : list cell) :
  In None l -> (List.length (observed l) < List.length l)%nat.
Proof.
  induction l as [|[q|] l IH]; cbn; intros H.
  - contradiction.
  - destruct H as [H | H]; [discriminate|]. specialize (IH H). lia.
  - pose proof (observed_length l). lia.
Qed.

(** A missing close empties every window that covers it. *)
Lemma rolling_mean_at_gap (w : nat) (xs : list cell) (i j : nat) :
  nth_error xs j = Some None ->
  (j <= i)%nat -> (i < j + w)%nat ->
  rolling_mean_at w xs i = None.
Proof.
  intros Hj Hle Hlt. unfold rolling_mean_at.
  assert (Hin : In None (window w xs i)).
  { apply (nth_error_In _ (j - (S i - w))).
    unfold window. rewrite nth_error_firstn, nth_error_skipn.
    destruct (Nat.ltb_spec (j - (S i - w)) (S i - (S i - w))); [|lia].
    rewrite <- Hj. f_equal. lia. }
  pose proof (observed_gap _ Hin).
  pose proof (window_length w xs i).
  destruct (Nat.leb_spec w (List.length (observed (window w xs i))));
    [lia | reflexivity].
Qed.

(** X19.  Fetching the price history never raises: when the provider
    fails, returns an empty history, or one without a Close column, the
    result is the empty frame. *)
Theorem fetch_stock_data_degrades
  (history : string -> string -> outcome DataFrame)
  (symbol period : string) :
  (exists out, fetch_stock_data history symbol period = Ret out) /\
  ((exists e, history symbol period = Raise e) \/
   (exists hist, history symbol period = Ret hist /\
      (is_empty hist = true \/ lookup "Close" (columns hist) = None)) ->
   fetch_stock_data history symbol period = Ret empty_frame).
Proof.
  assert (Hbad : (exists e, history symbol period = Raise e) \/
           (exists hist, history symbol period = Ret hist /\
              (is_empty hist = true \/ lookup "Close" (columns hist) = None)) ->
           fetch_stock_data history symbol period = Ret empty_frame).
  { unfold fetch_stock_data, getitem.
    intros [(e & ->) | (hist & -> & Hbad)]; cbn [obind otry];
      [reflexivity|].
    destruct (is_empty hist); [reflexivity|].
    destruct Hbad as [Hbad | Hc]; [discriminate Hbad|]. now rewrite Hc. }
  split; [|exact Hbad].
  destruct (history symbol period) as [hist|e] eqn:Hh;
    [|exists empty_frame; apply Hbad; eauto].
  destruct (is_empty hist) eqn:Hne;
    [exists empty_frame; apply Hbad; eauto|].
  destruct (lookup "Close" (columns hist)) as [c|] eqn:Hc;
    [|exists empty_frame; apply Hbad; eauto].
  eexists. now apply (fetch_stock_data_runs history _ _ hist c).
Qed.

(** X20.  The fetched history is the provider's frame with the two
    moving-average columns set: the index and every column with another
    name (Open, Volume, ...) come through unchanged. *)
Theorem fetch_keeps_provider_columns
  (history : string -> string -> outcome DataFrame)
  (symbol period : string) (hist : DataFrame) (c : list cell)
  (name : string) :
  history symbol period = Ret hist ->
  is_empty hist = false ->
  lookup "Close" (columns hist) = Some c ->
  name <> "MA5" -> name <> "MA20" ->
  exists out,
    fetch_stock_data history symbol period = Ret out /\
    index out = index hist /\
    lookup name (columns out) = lookup name (columns hist).
Proof.
  intros Hh Hne Hc H5 H20.
  eexists. split; [now apply (fetch_stock_data_runs history _ _ hist c)|].
  split; [reflexivity|].
  now rewrite !lookup_setitem_other.
Qed.

Lemma fetch_keeps_provider_columns_witness :
  exists out,
    fetch_stock_data (fun _ _ => Ret week_with_open) "1810.HK" "1y" = Ret out /\
    index out = index week_with_open /\
    lookup "Open" (columns out) = lookup "Open" (columns week_with_open).
Proof.
  apply (fetch_keeps_provider_columns (fun _ _ => Ret week_with_open)
           "1810.HK" "1y" week_with_open (closes [1; 2; 3; 4; 5]) "Open");
    try reflexivity; discriminate.
Defined.

(** X21.  A missing close leaves the moving averages missing at its own
    row and at the rows after it that still have it in their window: the
    next 4 rows for MA5, the next 19 for MA20. *)
Theorem missing_close_blanks_averages
  (history : string -> string -> outcome DataFrame)
  (symbol period : string) (hist : DataFrame) (c : list cell) (i j : nat) :
  history symbol period = Ret hist ->
  is_empty hist = false ->
  lookup "Close" (columns hist) = Some c ->
  nth_error c j = Some None ->
  (j <= i)%nat -> (i < List.length c)%nat ->
  exists out ma5 ma20,
    fetch_stock_data history symbol period = Ret out /\
    lookup "MA5" (columns out) = Some ma5 /\
    lookup "MA20" (columns out) = Some ma20 /\
    ((i < j + 5)%nat -> nth_error ma5 i = Some None) /\
    ((i < j + 20)%nat -> nth_error ma20 i = Some None).
Proof.
  intros Hh Hne Hc Hj Hle Hi.
  exists (setitem (setitem hist "MA5" (rolling_mean 5 c))
                  "MA20" (rolling_mean 20 c)),
         (rolling_mean 5 c), (rolling_mean 20 c).
  split; [now apply fetch_stock_data_runs|].
  split; [now rewrite lookup_setitem_other, lookup_setitem_same
            by discriminate|].
  split; [apply lookup_setitem_same|].
  split; intros H; rewrite (rolling_mean_nth _ c i Hi);
    now rewrite (rolling_mean_at_gap _ c i j Hj Hle H).
Qed.

Lemma missing_close_blanks_averages_witness :
  exists out ma5 ma20,
    fetch_stock_data (fun _ _ => Ret week_with_gap) "1810.HK" "1y" = Ret out /\
    lookup "MA5" (columns out) = Some ma5 /\
    lookup "MA20" (columns out) = Some ma20 /\
    ((4 < 2 + 5)%nat -> nth_error ma5 4 = Some None) /\
    ((4 < 2 + 20)%nat -> nth_error ma20 4 = Some None).
Proof.
  apply (missing_close_blanks_averages (fun _ _ => Ret week_with_gap)
           "1810.HK" "1y" week_with_gap
           [Some 1%Q; Some 2%Q; None; Some 4%Q; Some 5%Q] 4 2);
    try reflexivity; cbn; lia.
Defined.

End HistoryFacts.

(* ===================================================================== *)
(** ** More on the trend forecaster *)
(* ===================================================================== *)

Module TrendFacts.
Import Calendar Frame Stock Forecast Outlook Fixtures Samples ForecastFacts
  StockFacts.

Lemma is_empty_with_column (df : DataFrame) (name : string) (y : list cell) :
  lookup name (columns df) = Some y ->
  is_empty df = match index df with [] => true | _ => false end.
Proof.
  unfold is_empty. intros H.
  destruct (index df); [reflexivity|].
  destruct (columns df); [discriminate H | reflexivity].
Qed.

Section WithSolver.

Variable lstsq : list (list Q) -> list Q -> linear_model.

(** The forecaster, case by case. *)
Lemma predict_stock_trend_value (df : DataFrame) (N : Z) :
  predict_stock_trend lstsq df N =
  if is_empty df then Ret empty_frame
  else match lookup "Close" (columns df) with
       | None => Ret empty_frame
       | Some y =>
           if all_observed y then
             match last_item (index df) with
             | Ret last =>
                 match future_dates last N with
                 | Ret [] => Raise ValueError
                 | Ret future =>
                     Ret (forecast_frame (fitted lstsq df y) future)
                 | Raise e => Raise e
                 end
             | Raise e => Raise e
             end
           else Raise ValueError
       end.
Proof.
  unfold predict_stock_trend, has_column, getitem, fit, forecast_frame, fitted.
  destruct (is_empty df) eqn:Hne; [reflexivity|].
  destruct (lookup "Close" (columns df)) as [y|]; [|reflexivity].
  cbn [negb orb obind].
  destruct (is_empty_false df Hne) as (d & l & Hidx).
  destruct (last_item_nonempty d l) as (last & Hlast).
  rewrite Hidx in *. cbn [map poly_transform obind].
  destruct (all_observed y); cbn [obind]; [|reflexivity].
  rewrite Hlast. cbn [obind].
  destruct (future_dates last N) as [[|d' l']|e]; reflexivity.
Qed.

Lemma predict_stock_trend_same (df1 df2 : DataFrame) (N : Z) :
  index df1 = index df2 ->
  lookup "Close" (columns df1) = lookup "Close" (columns df2) ->
  predict_stock_trend lstsq df1 N = predict_stock_trend lstsq df2 N.
Proof.
  intros Hidx Hclose. rewrite !predict_stock_trend_value. unfold fitted.
  destruct (lookup "Close" (columns df2)) as [y|] eqn:H2.
  - rewrite (is_empty_with_column df1 "Close" y Hclose),
            (is_empty_with_column df2 "Close" y H2), Hclose, Hidx.
    reflexivity.
  - rewrite Hclose. destruct (is_empty df1), (is_empty df2); reflexivity.
Qed.

(** What a returned forecast looks like. *)
Lemma predict_stock_trend_returned (df out : DataFrame) (N : Z) :
  predict_stock_trend lstsq df N = Ret out ->
  out = empty_frame \/
  exists y last,
    lookup "Close" (columns df) = Some y /\
    last_item (index df) = Ret last /\
    out = forecast_frame (fitted lstsq df y) (steps last N).
Proof.
  rewrite predict_stock_trend_value.
  destruct (is_empty df); [intros E; injection E as <-; now left|].
  destruct (lookup "Close" (columns df)) as [y|];
    [|intros E; injection E as <-; now left].
  destruct (all_observed y); [|discriminate].
  destruct (last_item (index df)) as [last|e]; [|discriminate].
  destruct (future_dates last N) as [future|e] eqn:Hf; [|discriminate].
  apply future_dates_returned in Hf. subst future.
  destruct (steps last N) as [|d l] eqn:Hs; [discriminate|].
  intros E. injection E as <-. right. exists y, last. now rewrite Hs.
Qed.

End WithSolver.

Lemma firstn_seq0 (n m : nat) : (n <= m)%nat -> firstn n (seq 0 m) = seq 0 n.
Proof.
  intros H. replace m with (n + (m - n))%nat by lia.
  rewrite seq_app, firstn_app, length_seq, Nat.sub_diag, firstn_0, app_nil_r.
  apply firstn_all2. rewrite length_seq. lia.
Qed.

Lemma steps_prefix (last : Timestamp) (N N' : Z) :
  N <= N' ->
  steps last N = firstn (Z.to_nat N) (steps last N').
Proof.
  intros H. unfold steps, range.
  rewrite !firstn_map, firstn_seq0 by lia. reflexivity.
Qed.

Lemma forecast_frame_nth (model : linear_model) (future : list Timestamp)
  (i : nat) :
  nth_error (map Some (predict model (map poly2 (map features future)))) i
  = option_map
      (fun d => Some (dot (poly2 (features d)) (coef model)
                      + intercept model)%Q)
      (nth_error future i).
Proof.
  unfold predict. rewrite !map_map, nth_error_map. reflexivity.
Qed.

(** A comprehension with an element that raises. *)
Lemma in_order_raises {A B} (f : A -> outcome B) (e0 : exn) (l : list A) :
  (forall x e, f x = Raise e -> e = e0) ->
  (exists x e, In x l /\ f x = Raise e) ->
  in_order (map f l) = Raise e0.
Proof.
  intros Hkind. induction l as [|a l IH]; intros (x & e & Hin & Hx).
  - contradiction.
  - cbn [map in_order]. destruct (f a) as [b|e'] eqn:Ea.
    + destruct Hin as [-> | Hin]; [congruence|].
      rewrite IH; [reflexivity | eauto].
    + now rewrite (Hkind a e' Ea).
Qed.

Lemma future_dates_beyond (last : Timestamp) (N : Z) :
  1 <= N ->
  max_instant < instant last + N * NS_PER_DAY ->
  future_dates last N = Raise OutOfBoundsDatetime.
Proof.
  intros HN Hmax. unfold future_dates.
  apply in_order_raises.
  - intros x e. unfold add_timedelta. cbn zeta.
    destruct (_ && _); [discriminate|]. intros E. now injection E.
  - exists (Z.of_nat (Z.to_nat N - 1)), OutOfBoundsDatetime. split.
    + apply (nth_error_In _ (Z.to_nat N - 1)). apply range_nth. lia.
    + unfold add_timedelta. cbn zeta. cbn [shift instant].
      replace (Z.of_nat (Z.to_nat N - 1) + 1) with N by lia.
      destruct (Z.leb_spec (instant last + N * NS_PER_DAY) max_instant);
        [lia|]. now rewrite andb_false_r.
Qed.

(** X22.  On a non-empty history with a Close column the forecaster does
    not fall back to the empty frame when it cannot forecast: a missing
    close, or a horizon of 0 or less, raises [ValueError]; and with
    complete closes a positive horizon that reaches beyond the timestamp
    range raises [OutOfBoundsDatetime]. *)
Theorem forecast_raises
  (lstsq : list (list Q) -> list Q -> linear_model)
  (df : DataFrame) (N : Z) (y : list cell) (last : Timestamp) :
  is_empty df = false ->
  lookup "Close" (columns df) = Some y ->
  last_item (index df) = Ret last ->
  (all_observed y = false \/ N <= 0 ->
   predict_stock_trend lstsq df N = Raise ValueError) /\
  (all_observed y = true -> 1 <= N ->
   max_instant < instant last + N * NS_PER_DAY ->
   predict_stock_trend lstsq df N = Raise OutOfBoundsDatetime).
Proof.
  intros Hne Hy Hlast. rewrite predict_stock_trend_value, Hne, Hy, Hlast.
  split.
  - intros [-> | HN]; [reflexivity|].
    destruct (all_observed y); [|reflexivity].
    assert (E : future_dates last N = Ret []).
    { unfold future_dates, range.
      replace (Z.to_nat N) with 0%nat by lia. reflexivity. }
    now rewrite E.
  - intros -> HN Hmax. now rewrite (future_dates_beyond last N HN Hmax).
Qed.

Lemma forecast_raises_witness :
  (all_observed (closes [1]) = false \/ 7 <= 0 ->
   predict_stock_trend lstsq_mean last_day 7 = Raise ValueError) /\
  (all_observed (closes [1]) = true -> 1 <= 7 ->
   max_instant < instant (day 825914) + 7 * NS_PER_DAY ->
   predict_stock_trend lstsq_mean last_day 7 = Raise OutOfBoundsDatetime).
Proof.
  apply (forecast_raises lstsq_mean last_day 7 (closes [1]) (day 825914));
    reflexivity.
Defined.

(** X23.  The forecast reads the dates and the Close column only: two
    histories with the same index and the same closes get the same
    forecast, whatever their other columns (Open, Volume, MA5, ...). *)
Theorem forecast_reads_dates_and_closes
  (lstsq : list (list Q) -> list Q -> linear_model)
  (df1 df2 : DataFrame) (N : Z) :
  index df1 = index df2 ->
  lookup "Close" (columns df1) = lookup "Close" (columns df2) ->
  predict_stock_trend lstsq df1 N = predict_stock_trend lstsq df2 N.
Proof. apply predict_stock_trend_same. Qed.

Lemma forecast_reads_dates_and_closes_witness :
  predict_stock_trend lstsq_mean week_with_open 7
  = predict_stock_trend lstsq_mean week 7.
Proof.
  apply (forecast_reads_dates_and_closes lstsq_mean week_with_open week 7);
    reflexivity.
Defined.

(** X24.  Fetching and forecasting compose: the forecast from the fetched
    history, with its moving-average columns and their missing first
    values, is the forecast from the provider's history itself. *)
Theorem forecast_from_fetched_history
  (lstsq : list (list Q) -> list Q -> linear_model)
  (history : string -> string -> outcome DataFrame)
  (symbol period : string) (hist : DataFrame) (c : list cell) (N : Z) :
  history symbol period = Ret hist ->
  is_empty hist = false ->
  lookup "Close" (columns hist) = Some c ->
  exists fetched,
    fetch_stock_data history symbol period = Ret fetched /\
    lookup "MA5" (columns fetched) = Some (rolling_mean 5 c) /\
    predict_stock_trend lstsq fetched N = predict_stock_trend lstsq hist N.
Proof.
  intros Hh Hne Hc.
  eexists. split; [now apply (fetch_stock_data_runs history _ _ hist c)|].
  split.
  - now rewrite lookup_setitem_other, lookup_setitem_same by discriminate.
  - apply predict_stock_trend_same; [reflexivity|].
    now rewrite !lookup_setitem_other by discriminate.
Qed.

Lemma forecast_from_fetched_history_witness :
  exists fetched,
    fetch_stock_data yahoo_week "1810.HK" "1y" = Ret fetched /\
    lookup "MA5" (columns fetched)
    = Some (rolling_mean 5 (closes [1; 2; 3; 4; 5])) /\
    predict_stock_trend lstsq_mean fetched 7
    = predict_stock_trend lstsq_mean week 7.
Proof.
  apply (forecast_from_fetched_history lstsq_mean yahoo_week "1810.HK" "1y"
           week (closes [1; 2; 3; 4; 5]) 7); reflexivity.
Defined.

(** X25.  The predicted close of a date depends on its weekday and its
    month only: two forecast dates that agree on both (for example dates
    7 days apart within one month) get the same predicted close. *)
Theorem forecast_repeats_by_weekday_and_month
  (lstsq : list (list Q) -> list Q -> linear_model)
  (df out : DataFrame) (N : Z) (preds : list cell) (i j : nat)
  (di dj : Timestamp) :
  predict_stock_trend lstsq df N = Ret out ->
  lookup "Predicted_Close" (columns out) = Some preds ->
  nth_error (index out) i = Some di ->
  nth_error (index out) j = Some dj ->
  ts_dayofweek di = ts_dayofweek dj ->
  ts_month di = ts_month dj ->
  nth_error preds i = nth_error preds j /\ nth_error preds i <> None.
Proof.
  intros Hrun Hp Hi Hj Hdow Hmonth.
  destruct (predict_stock_trend_returned lstsq df out N Hrun)
    as [-> | (y & last & _ & _ & ->)]; [discriminate Hp|].
  cbn in Hp, Hi, Hj. injection Hp as <-.
  rewrite !forecast_frame_nth, Hi, Hj. cbn [option_map].
  unfold features. rewrite Hdow, Hmonth. split; [reflexivity | discriminate].
Qed.

Lemma forecast_repeats_by_weekday_and_month_witness :
  exists out preds,
    predict_stock_trend lstsq_mean week 14 = Ret out /\
    lookup "Predicted_Close" (columns out) = Some preds /\
    nth_error (index out) 0 = Some (day 739192) /\
    nth_error (index out) 7 = Some (day 739199) /\
    nth_error preds 0 = nth_error preds 7 /\ nth_error preds 0 <> None.
Proof.
  eexists. eexists.
  split; [vm_compute; reflexivity|]. split; [reflexivity|].
  split; [reflexivity|]. split; [reflexivity|].
  eapply (forecast_repeats_by_weekday_and_month lstsq_mean week _ 14 _ 0 7
            (day 739192) (day 739199));
    vm_compute; reflexivity.
Defined.

(** X26.  A longer horizon only adds points: the forecast over N days is
    the first part of the forecast over N' >= N days, dates and predicted
    closes alike. *)
Theorem forecast_extends
  (lstsq : list (list Q) -> list Q -> linear_model)
  (df out out' : DataFrame) (N N' : Z) :
  N <= N' ->
  predict_stock_trend lstsq df N = Ret out ->
  predict_stock_trend lstsq df N' = Ret out' ->
  index out = firstn (List.length (index out)) (index out') /\
  forall preds preds',
    lookup "Predicted_Close" (columns out) = Some preds ->
    lookup "Predicted_Close" (columns out') = Some preds' ->
    preds = firstn (List.length preds) preds'.
Proof.
  intros HN. rewrite !predict_stock_trend_value.
  destruct (is_empty df).
  { intros E E'. injection E as <-. injection E' as <-.
    split; [reflexivity | discriminate]. }
  destruct (lookup "Close" (columns df)) as [y|].
  2:{ intros E E'. injection E as <-. injection E' as <-.
      split; [reflexivity | discriminate]. }
  destruct (all_observed y); [|discriminate].
  destruct (last_item (index df)) as [last|e]; [|discriminate].
  destruct (future_dates last N) as [f|e] eqn:Hf; [|discriminate].
  destruct (future_dates last N') as [f'|e] eqn:Hf';
    [|intros _; discriminate].
  apply future_dates_returned in Hf, Hf'. subst f f'.
  destruct (steps last N) as [|d l] eqn:Hs; [discriminate|].
  destruct (steps last N') as [|d' l'] eqn:Hs'; [intros _; discriminate|].
  intros E E'. injection E as <-. injection E' as <-.
  rewrite <- Hs, <- Hs'.
  unfold forecast_frame. cbn [index columns lookup].
  change (String.eqb "Predicted_Close" "Predicted_Close") with true.
  cbn iota. split.
  - rewrite steps_length. now apply steps_prefix.
  - intros preds preds' Ep Ep'. injection Ep as <-. injection Ep' as <-.
    unfold predict. rewrite !length_map, steps_length.
    rewrite (steps_prefix last N N' HN) at 1.
    now rewrite <- !firstn_map.
Qed.

Lemma forecast_extends_witness :
  exists out out',
    predict_stock_trend lstsq_mean week 7 = Ret out /\
    predict_stock_trend lstsq_mean week 14 = Ret out' /\
    index out = firstn (List.length (index out)) (index out') /\
    forall preds preds',
      lookup "Predicted_Close" (columns out) = Some preds ->
      lookup "Predicted_Close" (columns out') = Some preds' ->
      preds = firstn (List.length preds) preds'.
Proof.
  eexists. eexists.
  split; [vm_compute; reflexivity|]. split; [vm_compute; reflexivity|].
  apply (forecast_extends lstsq_mean week _ _ 7 14);
    [lia | vm_compute; reflexivity | vm_compute; reflexivity].
Defined.

Lemma dayofweek_range (d : Date) : 0 <= dayofweek d <= 6.
Proof.
  unfold dayofweek. pose proof (Z.mod_pos_bound (d + 6) 7). lia.
Qed.

Lemma month_range (d : Date) : 1 <= month d <= 12.
Proof.
  unfold month, ord2ymd. cbv zeta.
  set (n := (((d - 1) mod DI400Y) mod DI100Y) mod DI4Y mod 365).
  assert (Hn : 0 <= n < 365) by (apply Z.mod_pos_bound; lia).
  destruct (_ || _); [cbn beta iota; lia|].
  rewrite Z.shiftr_div_pow2 by lia. change (2 ^ 5) with 32.
  set (m := (n + 50) / 32).
  assert (Hm : 1 <= m <= 12).
  { split; unfold m.
    - apply Z.div_le_lower_bound; lia.
    - assert ((n + 50) / 32 < 13); [|lia]. apply Z.div_lt_upper_bound; lia. }
  clearbody m n.
  match goal with
  | |- context [if n <? ?p then _ else _] => destruct (n <? p) eqn:E
  end; cbn beta iota; [|exact Hm].
  assert (m <> 1); [|lia].
  intros ->. apply Z.ltb_lt in E.
  change (Z.to_nat 1) with 1%nat in E. cbn in E. lia.
Qed.

Lemma poly2_terms (d : Timestamp) :
  poly2 (features d) = terms (ts_dayofweek d) (ts_month d).
Proof. reflexivity. Qed.

(** X27.  Every predicted close the forecaster returns is the fitted
    model applied to six terms of its timestamp, 1, w, m, w*w, w*m, m*m in
    this order, where w in 0..6 is the weekday and m in 1..12 the month of
    the timestamp; and the model is the least-squares fit of the observed
    closes on the same six terms of the historical timestamps. *)
Theorem forecast_point_from_weekday_and_month
  (lstsq : list (list Q) -> list Q -> linear_model)
  (df out : DataFrame) (N : Z) (y preds : list cell) (i : nat)
  (d : Timestamp) :
  predict_stock_trend lstsq df N = Ret out ->
  lookup "Close" (columns df) = Some y ->
  lookup "Predicted_Close" (columns out) = Some preds ->
  nth_error (index out) i = Some d ->
  let w := ts_dayofweek d in
  let m := ts_month d in
  let model :=
    lstsq (map (fun h => terms (ts_dayofweek h) (ts_month h)) (index df))
          (observed y) in
  0 <= w <= 6 /\ 1 <= m <= 12 /\
  nth_error preds i
  = Some (Some (dot (terms w m) (coef model) + intercept model)%Q).
Proof.
  intros Hrun Hy Hp Hd. cbn zeta.
  split; [apply dayofweek_range|]. split; [apply month_range|].
  destruct (predict_stock_trend_returned lstsq df out N Hrun)
    as [-> | (y' & last & Hy' & _ & ->)]; [discriminate Hp|].
  assert (y' = y) by congruence. subst y'.
  cbn in Hp, Hd. injection Hp as <-.
  rewrite forecast_frame_nth, Hd. cbn [option_map].
  unfold fitted. rewrite map_map, poly2_terms.
  rewrite (map_ext _ _ poly2_terms). reflexivity.
Qed.

Lemma forecast_point_from_weekday_and_month_witness :
  let model :=
    lstsq_mean (map (fun h => terms (ts_dayofweek h) (ts_month h))
                    (index week))
               (observed (closes [1; 2; 3; 4; 5])) in
  0 <= ts_dayofweek (day 739192) <= 6 /\
  1 <= ts_month (day 739192) <= 12 /\
  nth_error [Some (15 # 5)%Q; Some (15 # 5)%Q] 0
  = Some (Some (Qplus (dot (terms (ts_dayofweek (day 739192))
                                  (ts_month (day 739192)))
                           (coef model))
                      (intercept model))).
Proof.
  cbn zeta.
  apply (forecast_point_from_weekday_and_month lstsq_mean week
           {| index := [day 739192; day 739193];
              columns := [("Predicted_Close",
                           [Some (15 # 5); Some (15 # 5)]%Q)] |}
           2 (closes [1; 2; 3; 4; 5]) _ 0 (day 739192));
    vm_compute; reflexivity.
Defined.

End TrendFacts.
